(** * RAG FAQ support bot: the indexing, query and document-management
      workflow of [src/services/rag_service.py] and the upload route of
      [src/routes/api.py], as a shallow embedding.

    The service is glue around external collaborators (file system, Qdrant,
    the embedding and completion providers, the document loaders and the
    text splitter).  The embedding keeps the control flow of the Python
    code -- every [try]/[except], every guard, every string test on an
    exception message -- and threads an explicit state through it:

    - the file system and the Qdrant server, as finite maps;
    - the service object ([self]);
    - a schedule of injected failures, one slot per external call, for the
      failures that depend on parts of the machine outside the model
      (network, permissions, provider outages);
    - the log of the external calls issued, in order.                     *)

From Stdlib Require Import ZArith Lia Bool Ascii String.
From stdpp Require Import base option list gmap strings pretty fin_maps.

#[local] Set Warnings "-clear-no-such-hyp".

Local Open Scope string_scope.
Local Open Scope Z_scope.
Local Open Scope list_scope.

(* ===================================================================== *)
(** ** Python strings                                                     *)
(* ===================================================================== *)

(** A Python [str] is modelled by [string]; every operation the code uses
    (length, slicing, concatenation, comparison, search for a substring) is
    position-wise, so one [ascii] stands for one character. *)
Module Py.

(** [len(s)] *)
Definition len (s : string) : Z := Z.of_nat (String.length s).

(** [s[:n]] for a literal [n >= 0] *)
Fixpoint take (n : nat) (s : string) : string :=
  match n, s with
  | S n', String c r => String c (take n' r)
  | _, _ => EmptyString
  end.

(** [s[n:]] for [n >= 0] *)
Fixpoint drop (n : nat) (s : string) : string :=
  match n, s with
  | S n', String _ r => drop n' r
  | _, _ => s
  end.

(** [s.startswith(p)] *)
Fixpoint startswith (s p : string) {struct p} : bool :=
  match p, s with
  | EmptyString, _ => true
  | String a p', String b s' => if Ascii.eqb a b then startswith s' p' else false
  | String _ _, EmptyString => false
  end.

(** [s.endswith(p)] *)
Definition endswith (s p : string) : bool :=
  (String.length p <=? String.length s)%nat
  && String.eqb (drop (String.length s - String.length p) s) p.

(** [needle in hay] *)
Fixpoint contains (needle hay : string) : bool :=
  startswith hay needle
  || match hay with
     | EmptyString => false
     | String _ r => contains needle r
     end.

Definition lower_char (c : ascii) : ascii :=
  let n := nat_of_ascii c in
  if ((65 <=? n) && (n <=? 90))%nat then ascii_of_nat (n + 32) else c.

(** [s.lower()]; the messages tested are ASCII, other characters are kept *)
Fixpoint lower (s : string) : string :=
  match s with
  | EmptyString => EmptyString
  | String c r => String (lower_char c) (lower r)
  end.

(** [s.rfind(c)]: index of the last occurrence, [-1] when there is none *)
Fixpoint rfind (c : ascii) (s : string) : Z :=
  match s with
  | EmptyString => -1
  | String a r =>
      let i := rfind c r in
      if 0 <=? i then i + 1 else if Ascii.eqb a c then 0 else -1
  end.

(** truthiness of a [str] *)
Definition truthy (s : string) : bool := negb (String.eqb s "").

End Py.

(** [posixpath.basename]: [i = p.rfind('/') + 1; return p[i:]] *)
Definition basename (p : string) : string :=
  let i := Py.rfind "/"%char p + 1 in
  Py.drop (Z.to_nat i) p.

(** [posixpath.join] for two components *)
Definition path_join (a b : string) : string :=
  if Py.startswith b "/" then b
  else if negb (Py.truthy a) || Py.endswith a "/" then a +:+ b
  else a +:+ "/" +:+ b.

(* ===================================================================== *)
(** ** Exceptions and results                                             *)
(* ===================================================================== *)

(** The code distinguishes exceptions only through [str(e)]; the route
    raises [HTTPException], whose [str] is ["<status>: <detail>"]. *)
Inductive exn : Type :=
| Exception (msg : string)
| HTTPException (status_code : Z) (detail : string).

Definition str_exn (e : exn) : string :=
  match e with
  | Exception m => m
  | HTTPException s d => pretty s +:+ ": " +:+ d
  end.

Inductive result (A : Type) : Type :=
| Ok (a : A)
| Raise (e : exn).
Arguments Ok {A} a.
Arguments Raise {A} e.

(* ===================================================================== *)
(** ** Data model                                                         *)
(* ===================================================================== *)

(** [src/config.py], class [Settings] *)
Record Settings : Type := {
  qdrant_url : string;
  qdrant_api_key : string;
  google_api_key : string;
  collection_name : string;
  documents_dir : string
}.

(** The metadata dictionary of a LangChain document, restricted to the
    three keys the service reads or writes; [None] is an absent key. *)
Record Metadata : Type := {
  md_source : option string;
  md_filename : option string;
  md_page : option Z
}.

Record Document : Type := {
  page_content : string;
  metadata : Metadata
}.

(** An indexed vector point: the embedding of a chunk and the chunk as
    payload.  Of the vector only the length is ever inspected. *)
Record Point : Type := {
  pt_vector : list Z;
  pt_payload : Document
}.

Record Collection : Type := {
  col_size : Z;
  col_payload_indexes : list string;
  col_points : list Point
}.

(** An entry of the file system. *)
Inductive entry : Type :=
| File (content : string)
| Dir.

(** The part of the machine the service acts on.  Paths are compared as
    written (no normalisation of [.], [..] or doubled slashes). *)
Record World : Type := {
  fs : gmap string entry;
  qdrant : gmap string Collection
}.

(** The attributes of the [RAGService] object that the code tests. *)
Record Self : Type := {
  qdrant_client : bool;   (* [hasattr(self, 'qdrant_client')] *)
  vector_store : bool     (* [self.vector_store] is not [None] *)
}.

Inductive Loader : Type :=
| PyPDFLoader (file_path : string)
| TextLoader (file_path : string)
| DirectoryLoader (path : string).

(** The external calls the code issues. *)
Inductive event : Type :=
| EvQdrantClient
| EvGetCollections
| EvEmbedQuery (text : string)
| EvCreateCollection (name : string) (size : Z)
| EvCreatePayloadIndex (name field : string)
| EvQdrantVectorStore
| EvLoad (loader : Loader)
| EvDelete (name filename : string)
| EvAddDocuments (name : string) (documents : list Document)
| EvRetrieve (name question : string) (k : Z)
| EvChainInvoke (context question : string)
| EvListDir (path : string)
| EvRemove (path : string)
| EvMakeDirs (path : string)
| EvWrite (path content : string).

(* ===================================================================== *)
(** ** The state-and-exception monad                                      *)
(* ===================================================================== *)

Record St : Type := {
  self : Self;
  world : World;
  faults : list (option exn);   (* [Some e]: the next external call raises [e] *)
  trace : list event            (* external calls issued so far, oldest first *)
}.

Definition M (A : Type) : Type := St -> result A * St.

#[global] Instance M_ret : MRet M := fun A a s => (Ok a, s).

#[global] Instance M_bind : MBind M := fun A B f m s =>
  match m s with
  | (Ok a, s') => f a s'
  | (Raise e, s') => (Raise e, s')
  end.

Definition raise {A : Type} (e : exn) : M A := fun s => (Raise e, s).

(** [try: body  except Exception as e: handler e] *)
Definition try_except {A : Type} (body : M A) (handler : exn -> M A) : M A :=
  fun s =>
    match body s with
    | (Raise e, s') => handler e s'
    | r => r
    end.

Definition get_self : M Self := fun s => (Ok (self s), s).

Definition with_self (x : Self) (s : St) : St :=
  {| self := x; world := world s; faults := faults s; trace := trace s |}.

Definition set_self (x : Self) : M unit := fun s => (Ok tt, with_self x s).

Definition get_world : M World := fun s => (Ok (world s), s).

(** An external call: it is logged, consumes one slot of the failure
    schedule and, unless a failure is injected, acts on the world. *)
Definition external {A : Type} (ev : event)
    (sem : World -> result A * World) : M A := fun s =>
  match head (faults s) with
  | Some (Some e) =>
      (Raise e, {| self := self s; world := world s;
                   faults := tail (faults s); trace := trace s ++ [ev] |})
  | _ =>
      let '(r, w) := sem (world s) in
      (r, {| self := self s; world := w;
             faults := tail (faults s); trace := trace s ++ [ev] |})
  end.

(** [when c m]: [if c: m] *)
Definition when (c : bool) (m : M unit) : M unit := if c then m else mret tt.

(* ===================================================================== *)
(** ** The service                                                        *)
(* ===================================================================== *)

Record DocInfo : Type := {
  di_filename : string;
  di_path : string;
  di_size : Z
}.

Record IndexResult : Type := {
  raw_count : Z;
  chunk_count : Z;
  files : list string
}.

Record Reference : Type := {
  ref_id : string;
  ref_filename : string;
  ref_source : string;
  ref_page : Z;
  ref_preview : string
}.

Record QueryResult : Type := {
  answer : string;
  references : list Reference;
  context_used : Z
}.

Record UploadResponse : Type := {
  up_message : string;
  up_filename : string;
  up_chunks : Z
}.

Definition nl : string := String (ascii_of_nat 10) EmptyString.

(** [sep.join(parts)] *)
Fixpoint str_join (sep : string) (parts : list string) : string :=
  match parts with
  | [] => ""
  | [x] => x
  | x :: rest => x +:+ sep +:+ str_join sep rest
  end.

(** The names [os.listdir] reports for a directory are read off the paths. *)
Definition dir_prefix (d : string) : string :=
  if negb (Py.truthy d) || Py.endswith d "/" then d else d +:+ "/".

(** The name under which path [p] is listed in directory [d], if it is. *)
Definition child_name (d p : string) : option string :=
  if Py.startswith p (dir_prefix d) then
    let n := Py.drop (String.length (dir_prefix d)) p in
    if Py.truthy n && negb (Py.contains "/" n) then Some n else None
  else None.

Definition listdir_names (d : string) (m : gmap string entry) : list string :=
  omap (child_name d) (map_to_list m).*1.

(* ===================================================================== *)
(** ** A concrete deployment, for running the model                       *)
(* ===================================================================== *)

Module Fixture.

Definition settings : Settings :=
  {| qdrant_url := "http://localhost:6333";
     qdrant_api_key := "qk";
     google_api_key := "gk";
     collection_name := "my_knowledge_base";
     documents_dir := "src/documents" |}.

Definition text_document (path content : string) : Document :=
  {| page_content := content;
     metadata := {| md_source := Some path; md_filename := None; md_page := None |} |}.

(** Text files load as one document whose source is the path; a
    directory loads every file listed in it. *)
Definition loader_load (l : Loader) (m : gmap string entry) : result (list Document) :=
  match l with
  | TextLoader p | PyPDFLoader p =>
      match m !! p with
      | Some (File c) => Ok [text_document p c]
      | _ => Raise (Exception ("Error loading " +:+ p))
      end
  | DirectoryLoader d =>
      Ok (omap (fun n => match m !! path_join d n with
                         | Some (File c) => Some (text_document (path_join d n) c)
                         | _ => None
                         end) (listdir_names d m))
  end.

Definition split_documents (docs : list Document) : list Document :=
  List.filter (fun d => Py.truthy (page_content d)) docs.

Definition embed (text : string) : list Z := [Py.len text; 0; 1].

Definition similarity_search (question : string) (k : Z) (points : list Point)
    : list Document :=
  take (Z.to_nat k) (map pt_payload points).

Definition llm (system human : string) : string := "<p>answer</p>".

Definition ready : Self := {| qdrant_client := true; vector_store := true |}.

Definition chunk (path content : string) : Document :=
  {| page_content := content;
     metadata := {| md_source := Some path;
                    md_filename := Some (basename path);
                    md_page := None |} |}.

Definition mk_collection (docs : list Document) : Collection :=
  {| col_size := 3;
     col_payload_indexes := ["metadata.filename"];
     col_points := map (fun d => {| pt_vector := embed (page_content d);
                                   pt_payload := d |}) docs |}.

Definition start (f : gmap string entry) (q : gmap string Collection)
    (fl : list (option exn)) : St :=
  {| self := ready; world := {| fs := f; qdrant := q |}; faults := fl; trace := [] |}.

Fixpoint filler (n : nat) : string :=
  match n with
  | O => ""
  | S n' => String "x" (filler n')
  end.

Definition a_path : string := "src/documents/a.txt".

(** A store with one document, [a.txt]. *)
Definition one_file : gmap string entry :=
  {[ "src/documents" := Dir; a_path := File "hello" ]}.

(** A store whose [archive] entry is a directory. *)
Definition with_archive : gmap string entry :=
  {[ "src/documents" := Dir; "src/documents/archive" := Dir ]}.

Definition twenty_names : list string :=
  ["f01.txt"; "f02.txt"; "f03.txt"; "f04.txt"; "f05.txt";
   "f06.txt"; "f07.txt"; "f08.txt"; "f09.txt"; "f10.txt";
   "f11.txt"; "f12.txt"; "f13.txt"; "f14.txt"; "f15.txt";
   "f16.txt"; "f17.txt"; "f18.txt"; "f19.txt"; "f20.txt"].

(** A store at the cap: twenty documents. *)
Definition twenty_files : gmap string entry :=
  list_to_map (("src/documents", Dir)
               :: map (fun n => (path_join "src/documents" n, File "x")) twenty_names).

(** An index that holds one chunk of an older version of [a.txt]. *)
Definition old_index : gmap string Collection :=
  {[ "my_knowledge_base" := mk_collection [chunk a_path "old text"] ]}.

(** An index with chunks of two files, in the order
    [a.txt], [b.txt], [a.txt]; the first chunk is 250 characters long. *)
Definition three_chunks : list Document :=
  [chunk a_path (filler 250); chunk "src/documents/b.txt" "second";
   chunk a_path "later"].

Definition mixed_index : gmap string Collection :=
  {[ "my_knowledge_base" := mk_collection three_chunks ]}.

Definition empty_index : gmap string Collection :=
  {[ "my_knowledge_base" := mk_collection [] ]}.

(** The same store with [a.txt] emptied: its text yields no chunk. *)
Definition emptied_file : gmap string entry :=
  {[ "src/documents" := Dir; a_path := File "" ]}.

(** The settings without a Google API key. *)
Definition settings_without_key : Settings :=
  {| qdrant_url := "http://localhost:6333";
     qdrant_api_key := "qk";
     google_api_key := "";
     collection_name := "my_knowledge_base";
     documents_dir := "src/documents" |}.

(** Files hold ASCII text, which decodes to itself. *)
Definition read_text (content : string) : result string := Ok content.

End Fixture.

(** The configuration [RAGService.__init__] gives to the library's
    [RecursiveCharacterTextSplitter]; the splitter itself is a collaborator
    ([split_documents] below). *)
Record SplitterConfig : Type := {
  chunk_size : Z;
  chunk_overlap : Z;
  separators : list string
}.

Definition text_splitter : SplitterConfig :=
  {| chunk_size := 1000;
     chunk_overlap := 200;
     separators := [nl +:+ nl; nl; " "; ""] |}.

Section Service.

Variable settings : Settings.

(** The collaborators whose results the code only passes on. *)
Variable loader_load : Loader -> gmap string entry -> result (list Document).
Variable split_documents : list Document -> list Document.
Variable embed : string -> list Z.
Variable similarity_search : string -> Z -> list Point -> list Document.
Variable llm : string -> string -> string.

Set Default Proof Using "Type".

(** *** Qdrant client *)

(** The server's answers the code reacts to, by their message text. *)
Definition not_found_msg (name : string) : string :=
  "Not found: Collection `" +:+ name +:+ "` doesn't exist!".

Definition already_exists_msg (name : string) : string :=
  "Wrong input: Collection `" +:+ name +:+ "` already exists!".

Definition set_qdrant (w : World) (q : gmap string Collection) : World :=
  {| fs := fs w; qdrant := q |}.

Definition set_fs (w : World) (f : gmap string entry) : World :=
  {| fs := f; qdrant := qdrant w |}.

(** Run [f] on the named collection, or answer "not found". *)
Definition on_collection {A : Type} (name : string)
    (f : Collection -> A * Collection) (w : World) : result A * World :=
  match qdrant w !! name with
  | Some c => let '(a, c') := f c in (Ok a, set_qdrant w (<[name := c']> (qdrant w)))
  | None => (Raise (Exception (not_found_msg name)), w)
  end.

Definition get_collections : M (list string) :=
  external EvGetCollections (fun w => (Ok (map_to_list (qdrant w)).*1, w)).

Definition embed_query (text : string) : M (list Z) :=
  external (EvEmbedQuery text) (fun w => (Ok (embed text), w)).

Definition create_collection (name : string) (size : Z) : M unit :=
  external (EvCreateCollection name size) (fun w =>
    match qdrant w !! name with
    | Some _ => (Raise (Exception (already_exists_msg name)), w)
    | None =>
        (Ok tt, set_qdrant w (<[name := {| col_size := size;
                                           col_payload_indexes := [];
                                           col_points := [] |}]> (qdrant w)))
    end).

Definition create_payload_index (name field : string) : M unit :=
  external (EvCreatePayloadIndex name field) (on_collection name (fun c =>
    (tt, {| col_size := col_size c;
            col_payload_indexes := field :: col_payload_indexes c;
            col_points := col_points c |}))).

(** The payload filter [metadata.filename == filename]. *)
Definition has_filename (filename : string) (p : Point) : bool :=
  match md_filename (metadata (pt_payload p)) with
  | Some f => String.eqb f filename
  | None => false
  end.

(** The collection without the points that match the filter. *)
Definition purge (filename : string) (c : Collection) : Collection :=
  {| col_size := col_size c;
     col_payload_indexes := col_payload_indexes c;
     col_points := List.filter (fun p => negb (has_filename filename p))
                               (col_points c) |}.

(** [qdrant_client.delete] with a filter selector on [metadata.filename] *)
Definition delete_by_filename (name filename : string) : M unit :=
  external (EvDelete name filename)
           (on_collection name (fun c => (tt, purge filename c))).

Definition to_point (d : Document) : Point :=
  {| pt_vector := embed (page_content d); pt_payload := d |}.

(** The collection with the points of [documents] added. *)
Definition upsert (documents : list Document) (c : Collection) : Collection :=
  {| col_size := col_size c;
     col_payload_indexes := col_payload_indexes c;
     col_points := col_points c ++ map to_point documents |}.

(** [vector_store.add_documents]: embeds and upserts, as one step. *)
Definition add_documents (name : string) (documents : list Document) : M unit :=
  external (EvAddDocuments name documents)
           (on_collection name (fun c => (tt, upsert documents c))).

(** [vector_store.as_retriever(search_kwargs={"k": k}).invoke(question)] *)
Definition retrieve (name question : string) (k : Z) : M (list Document) :=
  external (EvRetrieve name question k) (on_collection name (fun c =>
    (similarity_search question k (col_points c), c))).

(** *** File system *)

Definition os_path_exists (p : string) : M bool :=
  w ← get_world; mret (bool_decide (is_Some (fs w !! p))).

Definition os_listdir (p : string) : M (list string) :=
  external (EvListDir p) (fun w =>
    match fs w !! p with
    | Some Dir => (Ok (listdir_names p (fs w)), w)
    | Some (File _) => (Raise (Exception ("[Errno 20] Not a directory: '" +:+ p +:+ "'")), w)
    | None => (Raise (Exception ("[Errno 2] No such file or directory: '" +:+ p +:+ "'")), w)
    end).

Definition os_remove (p : string) : M unit :=
  external (EvRemove p) (fun w =>
    match fs w !! p with
    | Some (File _) => (Ok tt, set_fs w (delete p (fs w)))
    | Some Dir => (Raise (Exception ("[Errno 21] Is a directory: '" +:+ p +:+ "'")), w)
    | None => (Raise (Exception ("[Errno 2] No such file or directory: '" +:+ p +:+ "'")), w)
    end).

(** [os.makedirs(p, exist_ok=True)] *)
Definition os_makedirs (p : string) : M unit :=
  external (EvMakeDirs p) (fun w =>
    match fs w !! p with
    | Some Dir => (Ok tt, w)
    | Some (File _) => (Raise (Exception ("[Errno 17] File exists: '" +:+ p +:+ "'")), w)
    | None => (Ok tt, set_fs w (<[p := Dir]> (fs w)))
    end).

(** [with open(p, "wb") as buffer: shutil.copyfileobj(src, buffer)] *)
Definition write_file (p content : string) : M unit :=
  external (EvWrite p content) (fun w =>
    match fs w !! p with
    | Some Dir => (Raise (Exception ("[Errno 21] Is a directory: '" +:+ p +:+ "'")), w)
    | _ => (Ok tt, set_fs w (<[p := File content]> (fs w)))
    end).

(** *** [RAGService] *)

(** The dimension used by [_initialize_vector_store]: that of a test
    embedding, with the fallback of the handler. *)
Definition test_dimension : M Z :=
  try_except
    (test_embedding ← embed_query "test";
     mret (Z.of_nat (length test_embedding)))
    (fun _ => mret 768).

(** The first [try] of [_initialize_vector_store]: check that the
    collection exists, create it if it does not. *)
Definition ensure_collection : M unit :=
  try_except
    (collection_names ← get_collections;
     when (negb (bool_decide (collection_name settings ∈ collection_names)))
       (embedding_dim ← test_dimension;
        create_collection (collection_name settings) embedding_dim))
    (fun _ => mret tt).

(** [RAGService._initialize_vector_store] *)
Definition _initialize_vector_store : M unit :=
  external EvQdrantClient (fun w => (Ok tt, w));;
  s ← get_self;
  set_self {| qdrant_client := true; vector_store := vector_store s |};;
  ensure_collection;;
  try_except
    (create_payload_index (collection_name settings) "metadata.filename")
    (fun _ => mret tt);;
  external EvQdrantVectorStore (fun w => (Ok tt, w));;
  s ← get_self;
  set_self {| qdrant_client := qdrant_client s; vector_store := true |}.

(** [RAGService.__init__] *)
Definition RAGService__init__ : M unit :=
  if negb (Py.truthy (google_api_key settings)) then
    raise (Exception "GOOGLE_API_KEY not found. Please set it in your .env file.")
  else
    set_self {| qdrant_client := false; vector_store := false |};;
    _initialize_vector_store.

(** [file_path or 'unknown'] *)
Definition or_unknown (file_path : option string) : string :=
  match file_path with
  | Some p => if Py.truthy p then p else "unknown"
  | None => "unknown"
  end.

(** [if file_path:] *)
Definition given (file_path : option string) : option string :=
  match file_path with
  | Some p => if Py.truthy p then Some p else None
  | None => None
  end.

(** The body of the loop that adds the metadata for source tracking. *)
Definition stamp (file_path : option string) (doc : Document) : Document :=
  let md := metadata doc in
  let source :=
    if negb (match md_source md with Some src => Py.truthy src | None => false end)
    then Some (default (or_unknown file_path) (md_source md))
    else md_source md in
  {| page_content := page_content doc;
     metadata := {| md_source := source;
                    md_filename := Some (basename (default "" source));
                    md_page := md_page md |} |}.

(** The test on [str(e)] that recognises a missing collection. *)
Definition is_missing_error (e : exn) : bool :=
  Py.contains "doesn't exist" (str_exn e)
  || Py.contains "not found" (Py.lower (str_exn e)).

(** The test on [str(create_error)] that recognises a lost creation race. *)
Definition is_already_exists_error (e : exn) : bool :=
  Py.contains "already exists" (Py.lower (str_exn e))
  || Py.contains "duplicate" (Py.lower (str_exn e)).

Definition load_raw (file_path : option string) : M (list Document) :=
  let loader :=
    match given file_path with
    | Some p => if Py.endswith p ".pdf" then PyPDFLoader p else TextLoader p
    | None => DirectoryLoader (documents_dir settings)
    end in
  external (EvLoad loader) (fun w => (loader_load loader (fs w), w)).

(** The body of the outer [try]: the versioning delete, whose failure
    is only reported, then the insert. *)
Definition delete_then_add (file_path : option string)
    (documents : list Document) : M unit :=
  match given file_path with
  | Some p =>
      let filename := basename p in
      try_except (delete_by_filename (collection_name settings) filename)
                 (fun _ => mret tt)
  | None => mret tt
  end;;
  add_documents (collection_name settings) documents.

(** The branch of the handler taken for a missing collection: create it
    with the dimension of a test embedding, then insert again. *)
Definition create_and_retry (documents : list Document) : M unit :=
  test_embedding ← embed_query "test";
  let embedding_dim := Z.of_nat (length test_embedding) in
  try_except
    (create_collection (collection_name settings) embedding_dim)
    (fun create_error =>
       if negb (is_already_exists_error create_error)
       then raise create_error else mret tt);;
  add_documents (collection_name settings) documents.

(** The [if self.vector_store and documents:] block. *)
Definition index_documents (file_path : option string)
    (documents : list Document) : M unit :=
  try_except
    (delete_then_add file_path documents)
    (fun e =>
       if is_missing_error e then create_and_retry documents
       else raise e).

(** [RAGService.load_and_index_documents] *)
Definition load_and_index_documents (file_path : option string) : M IndexResult :=
  raw ← load_raw file_path;
  let raw_documents := map (stamp file_path) raw in
  let documents := split_documents raw_documents in
  s ← get_self;
  when (vector_store s && negb (bool_decide (documents = [])))
       (index_documents file_path documents);;
  mret {| raw_count := Z.of_nat (length raw_documents);
          chunk_count := Z.of_nat (length documents);
          files := elements (list_to_set
                     (map (fun doc => default "unknown" (md_filename (metadata doc)))
                          documents) : gset string) |}.

Definition no_documents_result : QueryResult :=
  {| answer := "No documents have been indexed yet. Please upload and index some documents first.";
     references := [];
     context_used := 0 |}.

Definition no_relevant_result : QueryResult :=
  {| answer := "I couldn't find any relevant information in the documents to answer your question.";
     references := [];
     context_used := 0 |}.

(** The filename shown for a retrieved chunk:
    [doc.metadata.get('filename', os.path.basename(source))] with
    [source = doc.metadata.get('source', 'unknown')]. *)
Definition doc_source (doc : Document) : string :=
  default "unknown" (md_source (metadata doc)).

Definition doc_filename (doc : Document) : string :=
  default (basename (doc_source doc)) (md_filename (metadata doc)).

Definition doc_page (doc : Document) : Z :=
  default 0 (md_page (metadata doc)).

Definition context_part (doc : Document) : string :=
  "[Source: " +:+ doc_filename doc +:+ "]" +:+ nl +:+ page_content doc.

Definition build_context (docs : list Document) : string :=
  str_join (nl +:+ nl +:+ "---" +:+ nl +:+ nl) (map context_part docs).

Definition system_prompt : string :=
"You are a helpful assistant that answers questions based on the provided context.
            Format your response using HTML tags (e.g., <b>, <ul>, <li>, <p>, <br>).
            Do not include <html>, <head>, or <body> tags, just the content.
            When you use information from a source, DO NOT use inline citations in the text.
            Instead, list all unique references at the end of your answer in a separate section in the <li> tags.
            If the answer is not specifically mentioned in the context, respond with general knowledge and say you did not find the information in the context.".

Definition human_prompt (context question : string) : string :=
  "Context:" +:+ nl +:+ context +:+ nl +:+ nl +:+ "Question: " +:+ question
  +:+ nl +:+ nl
  +:+ "Answer the question based on the context above using HTML formatting. List unique references at the end.".

(** [chain.invoke({"context": context, "question": question})] *)
Definition chain_invoke (context question : string) : M string :=
  external (EvChainInvoke context question) (fun w =>
    (Ok (llm system_prompt (human_prompt context question)), w)).

(** [doc.page_content[:200] + "..." if len(doc.page_content) > 200
     else doc.page_content] *)
Definition preview (content : string) : string :=
  if 200 <? Py.len content then Py.take 200 content +:+ "..." else content.

Definition make_reference (doc : Document) : Reference :=
  {| ref_id := doc_filename doc;
     ref_filename := doc_filename doc;
     ref_source := doc_source doc;
     ref_page := doc_page doc;
     ref_preview := preview (page_content doc) |}.

(** One iteration of the loop that prepares the references; the
    accumulator is [(references, seen_sources)]. *)
Definition reference_step (acc : list Reference * gset string) (doc : Document)
    : list Reference * gset string :=
  let '(refs, seen_sources) := acc in
  let ref_id := doc_filename doc in
  if bool_decide (ref_id ∈ seen_sources) then acc
  else ((refs ++ [make_reference doc])%list, seen_sources ∪ {[ ref_id ]}).

Definition build_references (docs : list Document) : list Reference :=
  (foldl reference_step ([], ∅) docs).1.

(** What [query] does once the retriever has returned [docs]. *)
Definition answer_from (question : string) (docs : list Document) : M QueryResult :=
  if bool_decide (docs = []) then mret no_relevant_result
  else
    let context := build_context docs in
    answer ← chain_invoke context question;
    mret {| answer := answer;
            references := build_references docs;
            context_used := Z.of_nat (length docs) |}.

(** The first block of [query]: lazy initialisation, then the check
    that the collection exists.  [Some r] is the early [return r]. *)
Definition check_collection : M (option QueryResult) :=
  s ← get_self;
  when (negb (vector_store s)) _initialize_vector_store;;
  try_except
    (collection_names ← get_collections;
     if negb (bool_decide (collection_name settings ∈ collection_names))
     then mret (Some no_documents_result)
     else mret None)
    (fun _ => mret None).

(** The second block of [query]: the retrieval and its handler. *)
Definition retrieve_or_return (question : string) (k : Z)
    : M (QueryResult + list Document) :=
  try_except
    (docs ← retrieve (collection_name settings) question k;
     mret (inr docs))
    (fun e =>
       if is_missing_error e then mret (inl no_documents_result)
       else raise e).

(** [RAGService.query] *)
Definition query (question : string) (k : Z) : M QueryResult :=
  checked ← check_collection;
  match checked with
  | Some early => mret early
  | None =>
      retrieved ← retrieve_or_return question k;
      match retrieved with
      | inl early => mret early
      | inr docs => answer_from question docs
      end
  end.

(** Step 1 of [delete_document]:
    [if os.path.exists(file_path): os.remove(file_path)] *)
Definition remove_file (file_path : string) : M unit :=
  present ← os_path_exists file_path;
  when present (os_remove file_path).

(** [RAGService.delete_document] *)
Definition delete_document (filename : string) : M bool :=
  try_except
    (let file_path := path_join (documents_dir settings) filename in
     remove_file file_path;;
     s ← get_self;
     if vector_store s then
       try_except
         (s ← get_self;
          when (negb (qdrant_client s)) _initialize_vector_store;;
          delete_by_filename (collection_name settings) filename;;
          mret true)
         (fun _ => mret false)
     else mret true)
    (fun _ => mret false).

(** The body of the loop of [get_document_list]: the entry reported
    for a listed name, if it is a regular file. *)
Definition doc_info (w : World) (filename : string) : option DocInfo :=
  let filepath := path_join (documents_dir settings) filename in
  match fs w !! filepath with
  | Some (File content) =>
      Some {| di_filename := filename;
              di_path := filepath;
              di_size := Py.len content |}
  | _ => None
  end.

(** [RAGService.get_document_list] *)
Definition get_document_list : M (list DocInfo) :=
  present ← os_path_exists (documents_dir settings);
  if (present : bool) then
    names ← os_listdir (documents_dir settings);
    w ← get_world;
    mret (omap (doc_info w) names)
  else mret [].

(** *** The upload route, [upload_file] in [src/routes/api.py] *)

Definition upload_file (filename content : string) : M UploadResponse :=
  try_except
    (current_documents ← get_document_list;
     (if 20 <=? Z.of_nat (length current_documents)
      then raise (HTTPException 400 "File upload limit reached. Maximum 20 files allowed.")
      else mret tt);;
     os_makedirs (documents_dir settings);;
     let file_path := path_join (documents_dir settings) filename in
     write_file file_path content;;
     result ← load_and_index_documents (Some file_path);
     mret {| up_message := "File uploaded and indexed successfully";
             up_filename := filename;
             up_chunks := chunk_count result |})
    (fun e => raise (HTTPException 500 ("Error uploading file: " +:+ str_exn e))).

(** The route [DELETE /documents/{filename}] *)
Definition delete_document_route (filename : string) : M string :=
  try_except
    (success ← delete_document filename;
     (if negb success
      then raise (HTTPException 500 "Failed to delete document")
      else mret tt);;
     mret ("Document " +:+ filename +:+ " deleted successfully"))
    (fun e => raise (HTTPException 500 ("Error deleting document: " +:+ str_exn e))).



(** *** The other routes of [src/routes/api.py] *)

(** The route [POST /query], [query_rag] *)
Definition query_rag (question : string) (k : Z) : M QueryResult :=
  try_except
    (query question k)
    (fun e => raise (HTTPException 500 ("Error processing query: " +:+ str_exn e))).

(** The route [GET /documents], [list_documents] *)
Definition list_documents : M (list DocInfo) :=
  try_except
    get_document_list
    (fun e => raise (HTTPException 500 ("Error listing documents: " +:+ str_exn e))).

(** What [get_document] answers: a [FileResponse] on the file, which is
    not opened by the route, or the name and the text of the file. *)
Inductive DocumentResponse : Type :=
| FileResponse (path media_type filename : string)
| DocumentContent (filename content : string).

(** [with open(p, 'r', encoding='utf-8') as f: content = f.read()], for
    [read_text], the decoding of a file's content as UTF-8 text.  The
    read takes a slot of the failure schedule like every call to the
    outside; it changes nothing and is left out of the log. *)
Definition read_file (read_text : string -> result string) (p : string)
    : M string := fun s =>
  let s' := {| self := self s; world := world s;
               faults := tail (faults s); trace := trace s |} in
  match head (faults s) with
  | Some (Some e) => (Raise e, s')
  | _ =>
      match fs (world s) !! p with
      | Some (File content) => (read_text content, s')
      | Some Dir => (Raise (Exception ("[Errno 21] Is a directory: '" +:+ p +:+ "'")), s')
      | None => (Raise (Exception ("[Errno 2] No such file or directory: '" +:+ p +:+ "'")), s')
      end
  end.

(** The route [GET /documents/{filename}], [get_document]; its first
    handler re-raises an [HTTPException] as it is. *)
Definition get_document (read_text : string -> result string)
    (filename : string) : M DocumentResponse :=
  try_except
    (let file_path := path_join (documents_dir settings) filename in
     present ← os_path_exists file_path;
     (if negb present
      then raise (HTTPException 404 "Document not found")
      else mret tt);;
     if Py.endswith filename ".pdf"
     then mret (FileResponse file_path "application/pdf" filename)
     else
       content ← read_file read_text file_path;
       mret (DocumentContent filename content))
    (fun e =>
       match e with
       | HTTPException _ _ => raise e
       | Exception _ =>
           raise (HTTPException 500 ("Error retrieving document: " +:+ str_exn e))
       end).

(** *** Start-up, [lifespan] in [main.py], up to the [yield] *)

Definition lifespan_startup : M unit :=
  present ← os_path_exists (documents_dir settings);
  if (present : bool) then
    try_except
      (load_and_index_documents None;; mret tt)
      (fun _ => mret tt)
  else mret tt.

(* ===================================================================== *)
(** ** Specification-side definitions                                     *)
(* ===================================================================== *)

(** The chunks kept for the reference list, in the words of the
    specification: the first chunk of every filename, in retrieval order.
    A chunk is kept and every later chunk of the same filename is dropped. *)
Fixpoint first_per_filename (docs : list Document) : list Document :=
  match docs with
  | [] => []
  | d :: rest =>
      d :: filter (fun d' => doc_filename d' ≠ doc_filename d) (first_per_filename rest)
  end.

(** The failure injected into the [n]-th upcoming external call, if any. *)
Definition fault_at (n : nat) (st : St) : option exn :=
  match faults st !! n with
  | Some f => f
  | None => None
  end.

(** The [n]-th upcoming external call is answered by the collaborator
    itself: no failure is injected into it. *)
Definition answered (n : nat) (st : St) : Prop := fault_at n st = None.

(** The state after an external call that left the world as [w]. *)
Definition advance (st : St) (w : World) (ev : event) : St :=
  {| self := self st; world := w; faults := tail (faults st);
     trace := trace st ++ [ev] |}.

(** The documents the store holds: the regular files listed in the
    documents directory. *)
Definition stored_documents (w : World) : list DocInfo :=
  match fs w !! documents_dir settings with
  | Some Dir => omap (doc_info w) (listdir_names (documents_dir settings) (fs w))
  | _ => []
  end.

(** The exception behind the rejection of an upload at the cap: the
    failure injected into the directory listing, if any, and else the
    [HTTPException] of the cap check. *)
Definition rejection (st : St) : exn :=
  match fault_at 0 st with
  | Some e => e
  | None => HTTPException 400 "File upload limit reached. Maximum 20 files allowed."
  end.

(** The dimension [test_dimension] yields when the test embedding is the
    [n]-th upcoming call: the length of the embedding, or the fallback of
    the handler when the call fails. *)
Definition dimension_at (n : nat) (st : St) : Z :=
  match fault_at n st with
  | Some _ => 768
  | None => Z.of_nat (length (embed "test"))
  end.

(** Every run of the computation relates its initial to its final state. *)
Definition respects (R : relation St) {A : Type} (m : M A) : Prop :=
  forall st r st', m st = (r, st') -> R st st'.

(** The relations the runs are checked against: the file system is left
    as it was, the service object is left as it was, the log only grows. *)
Definition same_fs : relation St := fun st st' => fs (world st') = fs (world st).

Definition same_self : relation St := fun st st' => self st' = self st.

Definition trace_grows : relation St := fun st st' =>
  exists rest, trace st' = trace st ++ rest.

(** The relation holds across any external call that leaves the file
    system alone. *)
Definition across_calls (R : relation St) : Prop :=
  forall st w ev, fs w = fs (world st) -> R st (advance st w ev).

(** A run of [query] from [st] got past the collection check and its
    similarity search returned [docs]. *)
Definition retrieved (question : string) (k : Z) (st : St) (docs : list Document) : Prop :=
  exists st1 st2,
    check_collection st = (Ok None, st1)
    /\ retrieve (collection_name settings) question k st1 = (Ok docs, st2).

(* ===================================================================== *)
(** ** Properties                                                         *)
(* ===================================================================== *)



(** *** Python string facts *)

Lemma take_length (n : nat) (s : string) :
  String.length (Py.take n s) = Nat.min n (String.length s).
Proof.
  revert s; induction n as [|n IH]; intros [|c r]; simpl; try reflexivity.
  now rewrite IH.
Qed.

Lemma append_length (a b : string) :
  String.length (a +:+ b) = (String.length a + String.length b)%nat.
Proof. induction a as [|c a IH]; simpl; [reflexivity | now rewrite IH]. Qed.

Lemma startswith_app (a b : string) : Py.startswith (a +:+ b) a = true.
Proof.
  induction a as [|c a IH]; simpl; [reflexivity|].
  now rewrite Ascii.eqb_refl.
Qed.

Lemma contains_here (n h : string) : Py.startswith h n = true -> Py.contains n h = true.
Proof. intros H; destruct h; simpl in *; rewrite H; reflexivity. Qed.

Lemma contains_app_r (n a b : string) :
  Py.contains n b = true -> Py.contains n (a +:+ b) = true.
Proof.
  intros H; induction a as [|c a IH]; simpl; [exact H|].
  rewrite IH. apply orb_true_r.
Qed.

Lemma lower_app (a b : string) : Py.lower (a +:+ b) = Py.lower a +:+ Py.lower b.
Proof. induction a as [|c a IH]; simpl; [reflexivity | now rewrite IH]. Qed.

(** *** The preview of a chunk *)

Lemma preview_short (content : string) :
  Py.len content <= 200 -> preview content = content.
Proof.
  intros H. unfold preview.
  destruct (200 <? Py.len content) eqn:E; [|reflexivity].
  apply Z.ltb_lt in E. lia.
Qed.

Lemma preview_long (content : string) :
  200 < Py.len content -> preview content = Py.take 200 content +:+ "...".
Proof.
  intros H. unfold preview.
  destruct (200 <? Py.len content) eqn:E; [reflexivity|].
  apply Z.ltb_ge in E. lia.
Qed.

Lemma preview_bound (content : string) : Py.len (preview content) <= 203.
Proof.
  unfold preview, Py.len.
  destruct (200 <? _) eqn:E.
  - rewrite append_length, take_length. simpl String.length. lia.
  - apply Z.ltb_ge in E. unfold Py.len in E. lia.
Qed.

(** *** The reference loop *)

Lemma reference_loop (docs : list Document) :
  forall (refs : list Reference) (seen : gset string),
    foldl reference_step (refs, seen) docs
    = (refs ++ map make_reference
                 (filter (fun d => doc_filename d ∉ seen) (first_per_filename docs)),
       seen ∪ list_to_set (map doc_filename docs)).
Proof.
  clear settings loader_load split_documents embed similarity_search llm.
  induction docs as [|d rest IH]; intros refs seen.
  - simpl. rewrite app_nil_r. f_equal. set_solver.
  - cbn [foldl first_per_filename map list_to_set].
    unfold reference_step at 2. case_bool_decide as Hin.
    + rewrite IH. f_equal.
      * f_equal. f_equal. rewrite filter_cons_False by (intros Hn; apply Hn, Hin).
        rewrite list_filter_filter. apply list_filter_iff.
        intros x; split; [|tauto]. intros Hx; split; [exact Hx|].
        intros Heq. apply Hx. rewrite Heq. exact Hin.
      * set_solver.
    + rewrite IH. f_equal.
      * rewrite filter_cons_True by exact Hin.
        rewrite <- app_assoc. simpl. f_equal. f_equal. f_equal.
        rewrite list_filter_filter. apply list_filter_iff.
        intros x. set_solver.
      * set_solver.
Qed.

Lemma filter_keeps_all {A : Type} (P : A -> Prop) `{!forall x, Decision (P x)}
    (l : list A) :
  (forall x, x ∈ l -> P x) -> filter P l = l.
Proof.
  induction l as [|x l IH]; intros Hall; [reflexivity|].
  rewrite filter_cons_True by (apply Hall; left).
  f_equal. apply IH. intros y Hy. apply Hall. now right.
Qed.

Lemma build_references_spec (docs : list Document) :
  build_references docs = map make_reference (first_per_filename docs).
Proof.
  clear settings loader_load split_documents embed similarity_search llm.
  unfold build_references. rewrite reference_loop. simpl.
  f_equal. apply filter_keeps_all. intros x _. set_solver.
Qed.

Lemma first_per_filename_sublist (docs : list Document) :
  first_per_filename docs `sublist_of` docs.
Proof.
  induction docs as [|d rest IH]; simpl; [constructor|].
  apply sublist_skip. etransitivity; [apply sublist_filter | exact IH].
Qed.

Lemma first_per_filename_NoDup (docs : list Document) :
  NoDup (map doc_filename (first_per_filename docs)).
Proof.
  induction docs as [|d rest IH]; simpl; [constructor|].
  constructor.
  - intros Hin. apply list_elem_of_fmap in Hin as (d' & Heq & Hd').
    apply list_elem_of_filter in Hd' as [Hne _]. congruence.
  - eapply sublist_NoDup; [exact IH|].
    apply fmap_sublist, sublist_filter.
Qed.

Lemma first_per_filename_covers (docs : list Document) (d : Document) :
  d ∈ docs -> doc_filename d ∈ map doc_filename (first_per_filename docs).
Proof.
  induction docs as [|d0 rest IH]; intros Hin; [inversion Hin|].
  simpl. destruct (decide (doc_filename d = doc_filename d0)) as [->|Hne].
  - left.
  - right. apply elem_of_cons in Hin as [->|Hin]; [congruence|].
    specialize (IH Hin). apply list_elem_of_fmap in IH as (d' & Heq & Hd').
    apply list_elem_of_fmap. exists d'. split; [exact Heq|].
    apply list_elem_of_filter. split; [congruence | exact Hd'].
Qed.

Lemma first_per_filename_first (docs : list Document) (d : Document) :
  d ∈ first_per_filename docs ->
  exists i : nat,
    docs !! i = Some d
    /\ forall (j : nat) d', (j < i)%nat -> docs !! j = Some d' ->
         doc_filename d' ≠ doc_filename d.
Proof.
  induction docs as [|d0 rest IH]; simpl; intros Hin; [inversion Hin|].
  apply elem_of_cons in Hin as [->|Hin].
  - exists 0%nat. split; [reflexivity|]. intros j d' Hj. lia.
  - apply list_elem_of_filter in Hin as [Hne Hin].
    destruct (IH Hin) as (i & Hi & Hfirst).
    exists (S i). split; [exact Hi|].
    intros [|j] d' Hj Hd'.
    + injection Hd' as <-. congruence.
    + apply (Hfirst j); [lia | exact Hd'].
Qed.

(** *** Running the monad *)

Lemma external_run {A : Type} (ev : event) (sem : World -> result A * World)
    (st : St) :
  external ev sem st
  = match fault_at 0 st with
    | Some e => (Raise e, advance st (world st) ev)
    | None => let '(r, w) := sem (world st) in (r, advance st w ev)
    end.
Proof.
  unfold external, fault_at, advance.
  destruct st as [slf w fl tr]; simpl.
  destruct fl as [|[e|] fl]; reflexivity.
Qed.

Lemma fault_at_advance (n : nat) (st : St) (w : World) (ev : event) :
  fault_at n (advance st w ev) = fault_at (S n) st.
Proof.
  unfold fault_at, advance. destruct st as [slf w0 fl tr]; simpl.
  destruct fl as [|f fl]; reflexivity.
Qed.

Lemma external_answered {A : Type} (ev : event) (sem : World -> result A * World)
    (st : St) :
  answered 0 st ->
  external ev sem st = (let '(r, w) := sem (world st) in (r, advance st w ev)).
Proof. intros Hans. rewrite external_run, Hans. reflexivity. Qed.

Lemma external_failed {A : Type} (ev : event) (sem : World -> result A * World)
    (st : St) (e : exn) :
  fault_at 0 st = Some e ->
  external ev sem st = (Raise e, advance st (world st) ev).
Proof. intros Hf. rewrite external_run, Hf. reflexivity. Qed.

Lemma answered_dec (st : St) :
  answered 0 st \/ exists e, fault_at 0 st = Some e.
Proof. unfold answered. destruct (fault_at 0 st); eauto. Qed.

(** *** The query pipeline *)

Lemma check_collection_early (st st1 : St) (r : QueryResult) :
  check_collection st = (Ok (Some r), st1) -> r = no_documents_result.
Proof.
  unfold check_collection, mbind, M_bind, get_self, try_except, when.
  destruct (negb (vector_store (self st))).
  - destruct (_initialize_vector_store st) as [[[]|e] st0]; [|discriminate].
    destruct (get_collections st0) as [[names|e] st0']; [|discriminate].
    destruct (negb _); unfold mret, M_ret; congruence.
  - unfold mret at 1, M_ret at 1.
    destruct (get_collections st) as [[names|e] st0']; [|discriminate].
    destruct (negb _); unfold mret, M_ret; congruence.
Qed.

Lemma query_after_search (question : string) (k : Z) (st st1 st2 : St)
    (docs : list Document) :
  check_collection st = (Ok None, st1) ->
  retrieve (collection_name settings) question k st1 = (Ok docs, st2) ->
  query question k st = answer_from question docs st2.
Proof.
  intros Hc Hr. unfold query, mbind, M_bind. rewrite Hc.
  unfold retrieve_or_return, try_except, mbind, M_bind. rewrite Hr.
  reflexivity.
Qed.

Lemma query_ok_inv (question : string) (k : Z) (st st' : St) (res : QueryResult) :
  query question k st = (Ok res, st') ->
  res = no_documents_result
  \/ exists docs st2, retrieved question k st docs
       /\ answer_from question docs st2 = (Ok res, st').
Proof.
  unfold query, mbind, M_bind. intros H.
  destruct (check_collection st) as [[[early|]|e] st1] eqn:Hc; [| |discriminate].
  - left. apply check_collection_early in Hc. unfold mret, M_ret in H. congruence.
  - unfold retrieve_or_return, try_except, mbind, M_bind in H.
    destruct (retrieve _ question k st1) as [[docs|e] st2] eqn:Hr.
    + right. exists docs, st2. split; [exists st1, st2; auto | exact H].
    + left. destruct (is_missing_error e); unfold mret, M_ret, raise in H; congruence.
Qed.

Lemma answer_from_ok (question : string) (docs : list Document) (st2 st' : St)
    (res : QueryResult) :
  answer_from question docs st2 = (Ok res, st') ->
  references res = build_references docs
  /\ context_used res = Z.of_nat (length docs).
Proof.
  unfold answer_from. case_bool_decide as Hd.
  - subst docs. unfold mret, M_ret. intros [= <- <-]. split; reflexivity.
  - unfold mbind, M_bind.
    destruct (chain_invoke _ question st2) as [[a|e] st3]; [|discriminate].
    unfold mret, M_ret. intros [= <- <-]. split; reflexivity.
Qed.

Lemma answer_from_total (question : string) (docs : list Document) (st2 : St) :
  answered 0 st2 -> exists res st', answer_from question docs st2 = (Ok res, st').
Proof.
  intros Hans. unfold answer_from. case_bool_decide.
  - eexists _, _. reflexivity.
  - unfold mbind, M_bind, chain_invoke. rewrite external_answered by exact Hans.
    eexists _, _. reflexivity.
Qed.

Lemma answered_advance (n : nat) (st : St) (w : World) (ev : event) :
  answered (S n) st -> answered n (advance st w ev).
Proof. unfold answered. now rewrite fault_at_advance. Qed.

Lemma listed_iff_present (m : gmap string Collection) (name : string) :
  name ∈ (map_to_list m).*1 <-> is_Some (m !! name).
Proof.
  rewrite list_elem_of_fmap. split.
  - intros [[n c] [-> Hin]]. apply elem_of_map_to_list in Hin. now exists c.
  - intros [c Hc]. exists (name, c). split; [reflexivity|].
    now apply elem_of_map_to_list.
Qed.

Lemma not_found_is_missing (name : string) :
  is_missing_error (Exception (not_found_msg name)) = true.
Proof.
  unfold is_missing_error, not_found_msg, str_exn.
  apply orb_true_intro. left.
  apply (contains_app_r _ "Not found: Collection `").
  apply contains_app_r. reflexivity.
Qed.

Lemma already_exists_is_tolerated (name : string) :
  is_already_exists_error (Exception (already_exists_msg name)) = true.
Proof.
  unfold is_already_exists_error, already_exists_msg, str_exn.
  apply orb_true_intro. left.
  rewrite !lower_app.
  apply (contains_app_r _ (Py.lower "Wrong input: Collection `")).
  apply contains_app_r. reflexivity.
Qed.

Lemma check_collection_ready (st : St) :
  vector_store (self st) = true ->
  check_collection st
  = try_except
      (collection_names ← get_collections;
       if negb (bool_decide (collection_name settings ∈ collection_names))
       then mret (Some no_documents_result)
       else mret None)
      (fun _ => mret None) st.
Proof.
  intros Hvs. unfold check_collection, mbind at 1 2, M_bind at 1 2, get_self, when.
  rewrite Hvs. reflexivity.
Qed.

(** C2: on a nonexistent collection, and when the similarity search returns
    nothing, [query] returns normally with a fixed non-empty apology, no
    references and [context_used = 0].  The collection counts as found
    absent when the index itself answers the existence check or the
    search. *)
Theorem query_fixed_answers (question : string) (k : Z) (st : St) :
  (vector_store (self st) = true ->
   qdrant (world st) !! collection_name settings = None ->
   answered 0 st \/ answered 1 st ->
   exists st', query question k st = (Ok no_documents_result, st'))
  /\ (forall st1 st2,
        check_collection st = (Ok None, st1) ->
        retrieve (collection_name settings) question k st1 = (Ok [], st2) ->
        query question k st = (Ok no_relevant_result, st2))
  /\ (forall r, r = no_documents_result \/ r = no_relevant_result ->
        answer r ≠ "" /\ references r = [] /\ context_used r = 0).
Proof.
  split; [|split].
  - intros Hvs Habsent Hans.
    assert (Hnl : negb (bool_decide (collection_name settings
                     ∈ (map_to_list (qdrant (world st))).*1)) = true).
    { apply negb_true_iff, bool_decide_eq_false. rewrite listed_iff_present.
      rewrite Habsent. intros [c Hc]. discriminate. }
    unfold query, mbind at 1, M_bind at 1.
    rewrite (check_collection_ready st Hvs).
    unfold try_except at 1, mbind at 1, M_bind at 1, get_collections.
    destruct (answered_dec st) as [H0|[e He]].
    + rewrite external_answered by exact H0. cbn beta iota zeta.
      rewrite Hnl. eexists. reflexivity.
    + destruct Hans as [H0|H1]; [unfold answered in H0; congruence|].
      rewrite (external_failed _ _ st e He). cbn beta iota zeta.
      unfold mret at 1, M_ret at 1.
      unfold mbind at 1, M_bind at 1, retrieve_or_return, try_except,
        mbind at 1, M_bind at 1, retrieve.
      rewrite external_answered by (apply answered_advance; exact H1).
      unfold on_collection. cbn [world advance]. rewrite Habsent.
      rewrite not_found_is_missing. eexists. reflexivity.
  - intros st1 st2 Hc Hr. rewrite (query_after_search _ _ _ _ _ _ Hc Hr).
    reflexivity.
  - intros r [-> | ->]; repeat split; discriminate.
Qed.

(** C3: the reference list of a query result is the first chunk of every
    filename among the retrieved chunks, in retrieval order: no two entries
    share a filename, every retrieved filename has its entry, an entry is
    made from a chunk that no chunk of the same filename precedes, and it
    carries the chunk's filename as identifier and filename, its source
    path, its page number (0 when absent) and the preview of its text. *)
Theorem query_references_first_per_filename (question : string) (k : Z)
    (st st' : St) (res : QueryResult) :
  query question k st = (Ok res, st') ->
  NoDup (map ref_filename (references res))
  /\ (res = no_documents_result
      \/ exists docs,
           retrieved question k st docs
           /\ references res = map make_reference (first_per_filename docs)
           /\ first_per_filename docs `sublist_of` docs
           /\ (forall d, d ∈ docs ->
                 doc_filename d ∈ map ref_filename (references res))
           /\ (forall r, r ∈ references res ->
                 exists (i : nat) d,
                   docs !! i = Some d
                   /\ (forall (j : nat) d', (j < i)%nat -> docs !! j = Some d' ->
                         doc_filename d' ≠ doc_filename d)
                   /\ ref_id r = doc_filename d
                   /\ ref_filename r = doc_filename d
                   /\ ref_source r = default "unknown" (md_source (metadata d))
                   /\ ref_page r = default 0 (md_page (metadata d))
                   /\ ref_preview r = preview (page_content d))).
Proof.
  intros Hq. apply query_ok_inv in Hq as [-> | (docs & st2 & Hret & Ha)].
  - split; [constructor | now left].
  - apply answer_from_ok in Ha as [Hrefs _].
    rewrite build_references_spec in Hrefs.
    assert (Hfn : map ref_filename (references res)
                  = map doc_filename (first_per_filename docs)).
    { rewrite Hrefs, map_map. reflexivity. }
    split; [rewrite Hfn; apply first_per_filename_NoDup|].
    right. exists docs. repeat split; auto.
    + apply first_per_filename_sublist.
    + intros d Hd. rewrite Hfn. now apply first_per_filename_covers.
    + intros r Hr. rewrite Hrefs in Hr.
      apply list_elem_of_fmap in Hr as (d & -> & Hd).
      destruct (first_per_filename_first docs d Hd) as (i & Hi & Hfirst).
      exists i, d. repeat split; auto.
Qed.

(** C7: the preview of a reference entry is the chunk's text when that
    text has at most 200 characters, and its first 200 characters followed
    by ["..."] otherwise; it never exceeds 203 characters. *)
Theorem query_reference_preview (question : string) (k : Z)
    (st st' : St) (res : QueryResult) (r : Reference) :
  query question k st = (Ok res, st') ->
  r ∈ references res ->
  Py.len (ref_preview r) <= 203
  /\ exists docs d,
       retrieved question k st docs /\ d ∈ docs
       /\ ref_filename r = doc_filename d
       /\ (Py.len (page_content d) <= 200 -> ref_preview r = page_content d)
       /\ (200 < Py.len (page_content d) ->
           ref_preview r = Py.take 200 (page_content d) +:+ "...").
Proof.
  intros Hq Hr. apply query_ok_inv in Hq as [-> | (docs & st2 & Hret & Ha)].
  - inversion Hr.
  - apply answer_from_ok in Ha as [Hrefs _].
    rewrite build_references_spec in Hrefs. rewrite Hrefs in Hr.
    apply list_elem_of_fmap in Hr as (d & -> & Hd).
    split; [apply preview_bound|].
    exists docs, d. repeat split; auto.
    + eapply elem_of_sublist; [exact Hd | apply first_per_filename_sublist].
    + apply preview_short.
    + apply preview_long.
Qed.

(** C9: when the similarity search of a query returns [docs], the result
    reports [context_used = len(docs)], whatever the number of distinct
    filenames; the result is produced whenever the completion call does not
    fail. *)
Theorem query_context_used (question : string) (k : Z) (st st1 st2 : St)
    (docs : list Document) :
  check_collection st = (Ok None, st1) ->
  retrieve (collection_name settings) question k st1 = (Ok docs, st2) ->
  (forall res st', query question k st = (Ok res, st') ->
     context_used res = Z.of_nat (length docs)
     /\ Z.of_nat (length (references res)) <= context_used res)
  /\ (answered 0 st2 -> exists res st', query question k st = (Ok res, st')).
Proof.
  intros Hc Hr. rewrite (query_after_search _ _ _ _ _ _ Hc Hr). split.
  - intros res st' Ha. apply answer_from_ok in Ha as [Hrefs Hctx].
    split; [exact Hctx|]. rewrite Hctx, Hrefs, build_references_spec, length_fmap.
    apply inj_le, sublist_length, first_per_filename_sublist.
  - apply answer_from_total.
Qed.

(** *** Relations that every run respects *)

#[local] Instance same_fs_preorder : PreOrder same_fs.
Proof. split; unfold same_fs; [intros st | intros a b c H1 H2]; congruence. Qed.

#[local] Instance same_self_preorder : PreOrder same_self.
Proof. split; unfold same_self; [intros st | intros a b c H1 H2]; congruence. Qed.

#[local] Instance trace_grows_preorder : PreOrder trace_grows.
Proof.
  split; unfold trace_grows.
  - intros st. exists []. now rewrite app_nil_r.
  - intros a b c [r1 H1] [r2 H2]. exists (r1 ++ r2). now rewrite H2, H1, app_assoc.
Qed.

Lemma same_fs_across : across_calls same_fs.
Proof. intros st w ev Hw. exact Hw. Qed.

Lemma same_self_across : across_calls same_self.
Proof. intros st w ev Hw. reflexivity. Qed.

Lemma trace_grows_across : across_calls trace_grows.
Proof. intros st w ev Hw. now exists [ev]. Qed.

Section Respects.

Context (R : relation St) (HR : PreOrder R) (Hcalls : across_calls R).

Set Default Proof Using "Type HR Hcalls".

Lemma respects_ret {A : Type} (a : A) : respects R (mret a).
Proof. intros st r st' [= <- <-]. reflexivity. Qed.

Lemma respects_raise {A : Type} (e : exn) : respects R (@raise A e).
Proof. intros st r st' [= <- <-]. reflexivity. Qed.

Lemma respects_get_self : respects R get_self.
Proof. intros st r st' [= <- <-]. reflexivity. Qed.

Lemma respects_bind {A B : Type} (m : M A) (f : A -> M B) :
  respects R m -> (forall a, respects R (f a)) -> respects R (m ≫= f).
Proof.
  intros Hm Hf st r st'. unfold mbind, M_bind.
  destruct (m st) as [[a|e] st1] eqn:E; intros H.
  - transitivity st1; [exact (Hm _ _ _ E) | exact (Hf a _ _ _ H)].
  - injection H as <- <-. exact (Hm _ _ _ E).
Qed.

Lemma respects_try {A : Type} (body : M A) (handler : exn -> M A) :
  respects R body -> (forall e, respects R (handler e)) ->
  respects R (try_except body handler).
Proof.
  intros Hb Hh st r st'. unfold try_except.
  destruct (body st) as [[a|e] st1] eqn:E; intros H.
  - injection H as <- <-. exact (Hb _ _ _ E).
  - transitivity st1; [exact (Hb _ _ _ E) | exact (Hh e _ _ _ H)].
Qed.

Lemma respects_external {A : Type} (ev : event) (sem : World -> result A * World) :
  (forall w, fs (sem w).2 = fs w) -> respects R (external ev sem).
Proof.
  intros Hs st r st'. unfold external.
  destruct (head (faults st)) as [[e|]|];
    try (intros [= <- <-]; now apply (Hcalls st (world st)));
    specialize (Hs (world st)); destruct (sem (world st)) as [r0 w0];
    intros [= <- <-]; now apply (Hcalls st w0).
Qed.

Lemma on_collection_fs {A : Type} (name : string) (f : Collection -> A * Collection)
    (w : World) :
  fs (on_collection name f w).2 = fs w.
Proof.
  unfold on_collection. destruct (qdrant w !! name) as [c|]; [|reflexivity].
  destruct (f c). reflexivity.
Qed.

Lemma respects_delete_by_filename (name filename : string) :
  respects R (delete_by_filename name filename).
Proof. apply respects_external. intros w. apply on_collection_fs. Qed.

Lemma respects_add_documents (name : string) (documents : list Document) :
  respects R (add_documents name documents).
Proof. apply respects_external. intros w. apply on_collection_fs. Qed.

Lemma respects_embed_query (text : string) : respects R (embed_query text).
Proof. now apply respects_external. Qed.

Lemma respects_create_collection (name : string) (size : Z) :
  respects R (create_collection name size).
Proof.
  apply respects_external. intros w. destruct (qdrant w !! name); reflexivity.
Qed.

Lemma respects_load_raw (file_path : option string) : respects R (load_raw file_path).
Proof. now apply respects_external. Qed.

Lemma respects_get_collections : respects R get_collections.
Proof. now apply respects_external. Qed.

Lemma respects_create_payload_index (name field : string) :
  respects R (create_payload_index name field).
Proof. apply respects_external. intros w. apply on_collection_fs. Qed.

Create HintDb runs.

Hint Resolve respects_ret respects_raise respects_get_self
  respects_delete_by_filename respects_add_documents respects_embed_query
  respects_create_collection respects_load_raw respects_get_collections
  respects_create_payload_index : runs.

Ltac respects_step :=
  match goal with
  | |- respects _ (mbind _ _) => apply respects_bind; [|intros ?]
  | |- respects _ (try_except _ _) => apply respects_try; [|intros ?]
  | |- respects _ (when ?c _) => unfold when; destruct c
  | |- respects _ (match ?x with _ => _ end) => destruct x
  | |- respects _ _ => solve [auto with runs]
  end.

Lemma respects_ensure_collection : respects R ensure_collection.
Proof. unfold ensure_collection, test_dimension. repeat respects_step. Qed.

Lemma respects_create_and_retry (documents : list Document) :
  respects R (create_and_retry documents).
Proof. unfold create_and_retry. repeat respects_step. Qed.

Lemma respects_index_documents (file_path : option string)
    (documents : list Document) :
  respects R (index_documents file_path documents).
Proof.
  unfold index_documents, delete_then_add, create_and_retry.
  repeat respects_step.
Qed.

Lemma respects_load_and_index_documents (file_path : option string) :
  respects R (load_and_index_documents file_path).
Proof.
  unfold load_and_index_documents. repeat respects_step.
  apply respects_index_documents.
Qed.

End Respects.

Set Default Proof Using "Type".

Lemma load_and_index_documents_same_fs (file_path : option string) :
  respects same_fs (load_and_index_documents file_path).
Proof. apply respects_load_and_index_documents; [typeclasses eauto | apply same_fs_across]. Qed.

(** *** The upload route *)

Lemma stored_documents_dir (w : World) :
  stored_documents w ≠ [] -> fs w !! documents_dir settings = Some Dir.
Proof.
  unfold stored_documents.
  destruct (fs w !! documents_dir settings) as [[c|]|]; congruence.
Qed.

Lemma get_document_list_listed (st : St) :
  fs (world st) !! documents_dir settings = Some Dir ->
  answered 0 st ->
  get_document_list st
  = (Ok (stored_documents (world st)),
     advance st (world st) (EvListDir (documents_dir settings))).
Proof.
  intros Hdir Hans.
  unfold get_document_list, os_path_exists, get_world, mbind, M_bind, mret, M_ret.
  rewrite bool_decide_eq_true_2 by (rewrite Hdir; eauto).
  unfold os_listdir. rewrite external_answered by exact Hans.
  unfold stored_documents. rewrite Hdir. reflexivity.
Qed.

Lemma get_document_list_failed (st : St) (e : exn) :
  is_Some (fs (world st) !! documents_dir settings) ->
  fault_at 0 st = Some e ->
  get_document_list st
  = (Raise e, advance st (world st) (EvListDir (documents_dir settings))).
Proof.
  intros Hdir Hf.
  unfold get_document_list, os_path_exists, get_world, mbind, M_bind, mret, M_ret.
  rewrite bool_decide_eq_true_2 by exact Hdir.
  unfold os_listdir. rewrite (external_failed _ _ st e Hf). reflexivity.
Qed.

Lemma upload_rejected (filename content : string) (st : St) :
  20 <= Z.of_nat (length (stored_documents (world st))) ->
  upload_file filename content st
  = (Raise (HTTPException 500 ("Error uploading file: " +:+ str_exn (rejection st))),
     advance st (world st) (EvListDir (documents_dir settings))).
Proof.
  intros Hcap.
  assert (Hdir : fs (world st) !! documents_dir settings = Some Dir).
  { apply stored_documents_dir. intros Hnil. rewrite Hnil in Hcap. simpl in Hcap. lia. }
  unfold upload_file, try_except, mbind at 1, M_bind at 1, rejection.
  destruct (answered_dec st) as [Hans|[e He]].
  - rewrite (get_document_list_listed st Hdir Hans).
    unfold mbind at 1, M_bind at 1.
    rewrite (proj2 (Z.leb_le _ _) Hcap). unfold raise.
    rewrite Hans. reflexivity.
  - assert (Hsome : is_Some (fs (world st) !! documents_dir settings))
      by (rewrite Hdir; eauto).
    rewrite (get_document_list_failed st e Hsome He).
    rewrite He. reflexivity.
Qed.

(** C5: with 20 or more documents in the store the upload is rejected
    before anything is done: the world (files and index) is unchanged and
    the only external call issued is the directory listing.  Below the
    cap, an existing file of the same name is overwritten with the
    uploaded content. *)
Theorem upload_cap (filename content : string) (st : St) :
  (20 <= Z.of_nat (length (stored_documents (world st))) ->
   exists e st',
     upload_file filename content st = (Raise e, st')
     /\ world st' = world st
     /\ trace st' = trace st ++ [EvListDir (documents_dir settings)])
  /\ (forall old,
        Z.of_nat (length (stored_documents (world st))) < 20 ->
        fs (world st) !! documents_dir settings = Some Dir ->
        fs (world st) !! path_join (documents_dir settings) filename = Some (File old) ->
        answered 0 st -> answered 1 st -> answered 2 st ->
        exists r st',
          upload_file filename content st = (r, st')
          /\ fs (world st') !! path_join (documents_dir settings) filename
             = Some (File content)).
Proof.
  split.
  - intros Hcap. rewrite (upload_rejected filename content st Hcap).
    eexists _, _. repeat split.
  - intros old Hlow Hdir Hold H0 H1 H2.
    destruct (upload_file filename content st) as [r st'] eqn:Hup.
    exists r, st'. split; [reflexivity|].
    revert Hup.
    unfold upload_file, try_except, mbind at 1, M_bind at 1.
    rewrite (get_document_list_listed st Hdir H0).
    unfold mbind at 1, M_bind at 1.
    rewrite (proj2 (Z.leb_gt _ _) Hlow).
    unfold mret at 1, M_ret at 1.
    set (st1 := advance st (world st) (EvListDir (documents_dir settings))).
    assert (A1 : answered 0 st1) by now apply answered_advance.
    assert (A2 : answered 1 st1) by now apply answered_advance.
    unfold mbind at 1, M_bind at 1, os_makedirs.
    rewrite external_answered by exact A1.
    replace (fs (world st1) !! documents_dir settings) with (Some Dir).
    cbn beta iota zeta.
    set (st2 := advance st1 (world st1) (EvMakeDirs (documents_dir settings))).
    assert (A3 : answered 0 st2) by now apply answered_advance.
    unfold mbind at 1, M_bind at 1, write_file.
    rewrite external_answered by exact A3.
    replace (fs (world st2) !! path_join (documents_dir settings) filename)
      with (Some (File old)).
    cbn beta iota zeta.
    match goal with
    | |- context [advance st2 ?w ?ev] => set (st3 := advance st2 w ev)
    end.
    assert (Hfile : fs (world st3) !! path_join (documents_dir settings) filename
                    = Some (File content)) by apply lookup_insert_eq.
    unfold mbind at 1, M_bind at 1.
    destruct (load_and_index_documents (Some (path_join (documents_dir settings) filename)) st3)
      as [[res|e] st4] eqn:Hix;
      apply load_and_index_documents_same_fs in Hix;
      unfold mret, M_ret, raise; intros [= <- <-]; rewrite Hix; exact Hfile.
Qed.

(** C10: the cap check looks at the number of stored documents only.  At
    the cap, an upload whose filename is that of a stored document -- an
    overwrite that would not add a document -- is rejected like any other,
    and the outcome is the same for every filename and content. *)
Theorem upload_cap_ignores_filename (filename content : string) (st : St) :
  20 <= Z.of_nat (length (stored_documents (world st))) ->
  (exists d, d ∈ stored_documents (world st) /\ di_filename d = filename) ->
  (exists e st',
     upload_file filename content st = (Raise e, st') /\ world st' = world st)
  /\ (forall filename' content',
        upload_file filename' content' st = upload_file filename content st).
Proof.
  intros Hcap _. split.
  - rewrite (upload_rejected filename content st Hcap). eexists _, _. split; reflexivity.
  - intros filename' content'. now rewrite !upload_rejected.
Qed.

(** *** Deleting a document *)

Lemma filter_idem {A : Type} (f : A -> bool) (l : list A) :
  List.filter f (List.filter f l) = List.filter f l.
Proof.
  induction l as [|x l IH]; simpl; [reflexivity|].
  destruct (f x) eqn:E; simpl; [rewrite E, IH|]; auto.
Qed.

Lemma purge_idem (filename : string) (c : Collection) :
  purge filename (purge filename c) = purge filename c.
Proof. unfold purge. simpl. now rewrite filter_idem. Qed.

Lemma remove_file_self (p : string) (st st1 : St) (r : result unit) :
  remove_file p st = (r, st1) -> self st1 = self st.
Proof.
  unfold remove_file, os_path_exists, get_world, mbind, M_bind, mret, M_ret, when.
  case_bool_decide; [|intros [= <- <-]; reflexivity].
  unfold os_remove, external.
  destruct (head (faults st)) as [[e|]|];
    try destruct (fs (world st) !! p) as [[c|]|]; intros [= <- <-]; reflexivity.
Qed.

Lemma remove_file_absent (p : string) (st : St) :
  fs (world st) !! p = None -> remove_file p st = (Ok tt, st).
Proof.
  intros Hnone.
  unfold remove_file, os_path_exists, get_world, mbind, M_bind, mret, M_ret, when.
  rewrite bool_decide_eq_false_2; [reflexivity|].
  rewrite Hnone. intros [x Hx]. discriminate.
Qed.

Lemma remove_file_present (p content : string) (st : St) :
  fs (world st) !! p = Some (File content) ->
  answered 0 st ->
  remove_file p st
  = (Ok tt, advance st (set_fs (world st) (delete p (fs (world st)))) (EvRemove p)).
Proof.
  intros Hfile Hans.
  unfold remove_file, os_path_exists, get_world, mbind, M_bind, mret, M_ret, when.
  rewrite bool_decide_eq_true_2 by (rewrite Hfile; eauto).
  unfold os_remove. rewrite external_answered by exact Hans.
  rewrite Hfile. reflexivity.
Qed.

Lemma delete_by_filename_ok (name filename : string) (st st2 : St) (u : unit) :
  delete_by_filename name filename st = (Ok u, st2) ->
  exists c,
    qdrant (world st) !! name = Some c
    /\ st2 = advance st (set_qdrant (world st)
                          (<[name := purge filename c]> (qdrant (world st))))
                     (EvDelete name filename).
Proof.
  unfold delete_by_filename, external, on_collection, advance.
  destruct (head (faults st)) as [[e|]|]; try discriminate;
    destruct (qdrant (world st) !! name) as [c|]; try discriminate;
    intros [= <- <-]; exists c; split; reflexivity.
Qed.

Lemma delete_document_steps (filename : string) (st : St) :
  vector_store (self st) = true ->
  qdrant_client (self st) = true ->
  delete_document filename st
  = match remove_file (path_join (documents_dir settings) filename) st with
    | (Raise _, st1) => (Ok false, st1)
    | (Ok _, st1) =>
        match delete_by_filename (collection_name settings) filename st1 with
        | (Ok _, st2) => (Ok true, st2)
        | (Raise _, st2) => (Ok false, st2)
        end
    end.
Proof.
  intros Hvs Hqc.
  unfold delete_document, try_except at 1, mbind at 1, M_bind at 1.
  destruct (remove_file _ st) as [[[]|e] st1] eqn:Hrm; [|reflexivity].
  pose proof (remove_file_self _ _ _ _ Hrm) as Hself.
  unfold mbind at 1, M_bind at 1, get_self. rewrite Hself, Hvs.
  unfold try_except, mbind at 1, M_bind at 1. rewrite Hself, Hqc.
  unfold when, negb, mbind at 1, M_bind at 1, mret at 1, M_ret at 1.
  unfold mbind, M_bind.
  destruct (delete_by_filename _ filename st1) as [[[]|e] st2]; reflexivity.
Qed.

(** C6 (as amended): [delete_document] first removes the file from disk
    when it is present -- a missing file is passed over without a call --
    and then issues the filtered delete on the index.  It never raises; it
    returns [False] exactly when the disk removal or the index deletion
    raises, the index deletion not being issued in the first case.  After
    a successful delete, deleting the same filename again succeeds and
    changes nothing. *)
Theorem delete_document_outcome (filename : string) (st : St) :
  vector_store (self st) = true ->
  qdrant_client (self st) = true ->
  delete_document filename st
  = match remove_file (path_join (documents_dir settings) filename) st with
    | (Raise _, st1) => (Ok false, st1)
    | (Ok _, st1) =>
        match delete_by_filename (collection_name settings) filename st1 with
        | (Ok _, st2) => (Ok true, st2)
        | (Raise _, st2) => (Ok false, st2)
        end
    end
  /\ (fs (world st) !! path_join (documents_dir settings) filename = None ->
      remove_file (path_join (documents_dir settings) filename) st = (Ok tt, st))
  /\ (forall content,
        fs (world st) !! path_join (documents_dir settings) filename
        = Some (File content) ->
        answered 0 st ->
        exists st1,
          remove_file (path_join (documents_dir settings) filename) st = (Ok tt, st1)
          /\ fs (world st1) !! path_join (documents_dir settings) filename = None
          /\ trace st1 = trace st ++ [EvRemove (path_join (documents_dir settings) filename)])
  /\ (forall st',
        delete_document filename st = (Ok true, st') ->
        answered 0 st' ->
        fs (world st') !! path_join (documents_dir settings) filename = None
        /\ (forall c p, qdrant (world st') !! collection_name settings = Some c ->
              p ∈ col_points c -> has_filename filename p = false)
        /\ exists st'',
             delete_document filename st' = (Ok true, st'')
             /\ world st'' = world st').
Proof.
  intros Hvs Hqc. split; [|split; [|split]].
  - now apply delete_document_steps.
  - apply remove_file_absent.
  - intros content Hfile Hans. eexists. split; [|split].
    + now apply (remove_file_present _ content).
    + apply lookup_delete_eq.
    + reflexivity.
  - intros st' Hrun Hans.
    rewrite (delete_document_steps filename st Hvs Hqc) in Hrun.
    destruct (remove_file _ st) as [[[]|e] st1] eqn:Hrm; [|discriminate].
    destruct (delete_by_filename _ filename st1) as [[[]|e] st2] eqn:Hdel;
      [|discriminate].
    injection Hrun as <-.
    apply delete_by_filename_ok in Hdel as (c & Hc & ->).
    assert (Hgone : fs (world st1) !! path_join (documents_dir settings) filename = None).
    { revert Hrm.
      unfold remove_file, os_path_exists, get_world, mbind, M_bind, mret, M_ret, when.
      case_bool_decide as Hp.
      - unfold os_remove, external.
        destruct (head (faults st)) as [[e|]|]; try discriminate;
          destruct (fs (world st) !! _) as [[c0|]|] eqn:Hl; try discriminate;
          intros [= <-]; apply lookup_delete_eq.
      - intros [= <-]. destruct (fs (world st) !! _) eqn:Hl; [|reflexivity].
        destruct Hp. eauto. }
    set (w1 := set_qdrant (world st1)
                 (<[collection_name settings := purge filename c]> (qdrant (world st1)))).
    set (st2 := advance st1 w1 _) in *.
    assert (Hc2 : qdrant (world st2) !! collection_name settings
                  = Some (purge filename c)) by apply lookup_insert_eq.
    split; [exact Hgone|]. split.
    + intros c' p Hc' Hp. rewrite Hc2 in Hc'. injection Hc' as <-.
      apply list_elem_of_In, filter_In in Hp as [_ Hp].
      now apply negb_true_iff in Hp.
    + rewrite (delete_document_steps filename st2).
      2:{ cbn. rewrite (remove_file_self _ _ _ _ Hrm). exact Hvs. }
      2:{ cbn. rewrite (remove_file_self _ _ _ _ Hrm). exact Hqc. }
      rewrite remove_file_absent by exact Hgone.
      unfold delete_by_filename. rewrite external_answered by exact Hans.
      unfold on_collection. rewrite Hc2. cbn beta iota zeta.
      eexists. split; [reflexivity|].
      cbn [world advance]. rewrite purge_idem.
      unfold set_qdrant. rewrite insert_id by exact Hc2.
      subst st2 w1. reflexivity.
Qed.

(** *** Indexing a single file *)

Lemma external_trace {A : Type} (ev : event) (sem : World -> result A * World)
    (st : St) :
  trace (external ev sem st).2 = trace st ++ [ev].
Proof.
  rewrite external_run. destruct (fault_at 0 st); [reflexivity|].
  destruct (sem (world st)). reflexivity.
Qed.

Lemma delete_then_add_run (p : string) (documents : list Document) (st : St) :
  Py.truthy p = true ->
  delete_then_add (Some p) documents st
  = add_documents (collection_name settings) documents
      (delete_by_filename (collection_name settings) (basename p) st).2.
Proof.
  intros Hp. unfold delete_then_add, given. rewrite Hp.
  unfold mbind, M_bind, try_except.
  destruct (delete_by_filename _ (basename p) st) as [[[]|e] sA]; reflexivity.
Qed.

Lemma index_documents_trace (p : string) (documents : list Document)
    (st st' : St) (r : result unit) :
  Py.truthy p = true ->
  index_documents (Some p) documents st = (r, st') ->
  exists rest,
    trace st' = trace st ++ EvDelete (collection_name settings) (basename p)
                         :: EvAddDocuments (collection_name settings) documents
                         :: rest.
Proof.
  intros Hp. unfold index_documents, try_except.
  rewrite (delete_then_add_run p documents st Hp).
  set (sA := (delete_by_filename _ _ st).2).
  assert (HA : trace sA = trace st ++ [EvDelete (collection_name settings) (basename p)])
    by apply external_trace.
  pose proof (external_trace (EvAddDocuments (collection_name settings) documents)
                (on_collection (collection_name settings)
                   (fun c => (tt, upsert documents c))) sA) as HB.
  fold (add_documents (collection_name settings) documents) in HB.
  destruct (add_documents _ documents sA) as [[[]|e] sB]; simpl in HB.
  - intros [= <- <-]. exists []. rewrite HB, HA, <- app_assoc. reflexivity.
  - intros Hh.
    assert (Hg : trace_grows sB st').
    { destruct (is_missing_error e).
      - exact (respects_create_and_retry trace_grows _ trace_grows_across
                 documents _ _ _ Hh).
      - injection Hh as <- <-. reflexivity. }
    destruct Hg as [rest Hrest]. exists rest.
    rewrite Hrest, HB, HA, <- !app_assoc. reflexivity.
Qed.

Lemma load_and_index_single (p : string) (st st1 : St) (raw : list Document) :
  vector_store (self st) = true ->
  load_raw (Some p) st = (Ok raw, st1) ->
  split_documents (map (stamp (Some p)) raw) ≠ [] ->
  load_and_index_documents (Some p) st
  = (index_documents (Some p) (split_documents (map (stamp (Some p)) raw));;
     mret {| raw_count := Z.of_nat (length (map (stamp (Some p)) raw));
             chunk_count := Z.of_nat (length (split_documents (map (stamp (Some p)) raw)));
             files := elements (list_to_set
                        (map (fun doc => default "unknown" (md_filename (metadata doc)))
                             (split_documents (map (stamp (Some p)) raw))) : gset string) |})
      st1.
Proof.
  intros Hvs Hload Hne.
  pose proof (respects_load_raw same_self _ same_self_across (Some p) st _ st1 Hload)
    as Hself.
  unfold load_and_index_documents, mbind at 1, M_bind at 1. rewrite Hload.
  unfold mbind at 1, M_bind at 1, get_self. rewrite Hself, Hvs.
  rewrite bool_decide_eq_false_2 by exact Hne. reflexivity.
Qed.

Lemma purge_nothing (filename : string) (c : Collection) :
  (forall pt, pt ∈ col_points c -> has_filename filename pt = false) ->
  purge filename c = c.
Proof.
  intros Hnone. destruct c as [sz ix pts]. unfold purge. simpl in *. f_equal.
  induction pts as [|pt pts IH]; [reflexivity|]. simpl.
  rewrite (Hnone pt) by left. simpl. f_equal. apply IH.
  intros q Hq. apply Hnone. now right.
Qed.

(** C1 (as amended): indexing a single file that yields at least one
    chunk issues the filtered delete for the file's name and then the
    insert, in this order, also when the index holds nothing under that
    name (the delete then changes nothing).  When the collection exists
    and both calls are answered, the points under that name afterwards are
    exactly the new ones: no point of an older version is left. *)
Theorem reindex_single_file (p : string) (st st1 : St) (raw : list Document) :
  Py.truthy p = true ->
  vector_store (self st) = true ->
  load_raw (Some p) st = (Ok raw, st1) ->
  split_documents (map (stamp (Some p)) raw) ≠ [] ->
  (exists r st' rest,
     load_and_index_documents (Some p) st = (r, st')
     /\ trace st' = trace st1
                    ++ EvDelete (collection_name settings) (basename p)
                    :: EvAddDocuments (collection_name settings)
                         (split_documents (map (stamp (Some p)) raw))
                    :: rest)
  /\ (forall c,
        qdrant (world st1) !! collection_name settings = Some c ->
        answered 0 st1 -> answered 1 st1 ->
        exists res st',
          load_and_index_documents (Some p) st = (Ok res, st')
          /\ chunk_count res
             = Z.of_nat (length (split_documents (map (stamp (Some p)) raw)))
          /\ qdrant (world st') !! collection_name settings
             = Some (upsert (split_documents (map (stamp (Some p)) raw))
                            (purge (basename p) c))
          /\ (forall c' pt,
                qdrant (world st') !! collection_name settings = Some c' ->
                pt ∈ col_points c' ->
                has_filename (basename p) pt = true ->
                pt ∈ map to_point (split_documents (map (stamp (Some p)) raw)))
          /\ ((forall pt, pt ∈ col_points c -> has_filename (basename p) pt = false) ->
              purge (basename p) c = c)).
Proof.
  intros Hp Hvs Hload Hne.
  rewrite (load_and_index_single p st st1 raw Hvs Hload Hne).
  set (documents := split_documents (map (stamp (Some p)) raw)).
  split.
  - unfold mbind, M_bind.
    destruct (index_documents (Some p) documents st1) as [[[]|e] st'] eqn:Hix;
      destruct (index_documents_trace p documents st1 st' _ Hp Hix) as [rest Hrest];
      eexists _, _, rest; split; (reflexivity || exact Hrest).
  - intros c Hc H0 H1.
    unfold mbind, M_bind, index_documents, try_except.
    rewrite (delete_then_add_run p documents st1 Hp).
    unfold delete_by_filename at 1. rewrite external_answered by exact H0.
    unfold on_collection at 1. rewrite Hc. cbn beta iota zeta. cbn [snd].
    unfold add_documents. rewrite external_answered by (now apply answered_advance).
    unfold on_collection. cbn [world advance set_qdrant qdrant].
    rewrite lookup_insert_eq. cbn beta iota zeta.
    eexists _, _. split; [reflexivity|]. split; [reflexivity|].
    cbn [world advance set_qdrant qdrant]. rewrite lookup_insert_eq.
    split; [reflexivity|]. split.
    + intros c' pt [= <-] Hpt Hhas. cbn [upsert purge col_points] in Hpt.
      apply elem_of_app in Hpt as [Hold|Hnew]; [|exact Hnew].
      apply list_elem_of_In, filter_In in Hold as [_ Hold].
      rewrite Hhas in Hold. discriminate.
    + apply purge_nothing.
Qed.

(** *** Creating the collection *)

Lemma test_dimension_run (st : St) :
  test_dimension st
  = (Ok (dimension_at 0 st), advance st (world st) (EvEmbedQuery "test")).
Proof.
  unfold test_dimension, try_except, mbind, M_bind, embed_query, dimension_at.
  rewrite external_run. destruct (fault_at 0 st); reflexivity.
Qed.

Lemma swallow_run (m : M unit) (st : St) :
  try_except m (fun _ => mret tt) st = (Ok tt, (m st).2).
Proof. unfold try_except. destruct (m st) as [[[]|e] s']; reflexivity. Qed.

Lemma ensure_collection_absent (st : St) :
  qdrant (world st) !! collection_name settings = None ->
  answered 0 st ->
  ensure_collection st
  = (Ok tt,
     (create_collection (collection_name settings) (dimension_at 1 st)
        (advance (advance st (world st) EvGetCollections) (world st)
                 (EvEmbedQuery "test"))).2).
Proof.
  intros Habsent H0. unfold ensure_collection, try_except, mbind at 1, M_bind at 1.
  unfold get_collections. rewrite external_answered by exact H0.
  cbn beta iota zeta.
  rewrite bool_decide_eq_false_2
    by (rewrite listed_iff_present, Habsent; intros [c Hc]; discriminate).
  unfold negb, when, mbind, M_bind. rewrite test_dimension_run.
  unfold dimension_at. rewrite fault_at_advance. cbn [world advance].
  destruct (create_collection _ _ _) as [[[]|e] s']; reflexivity.
Qed.

Lemma fault_at_with_self (n : nat) (x : Self) (st : St) :
  fault_at n (with_self x st) = fault_at n st.
Proof. reflexivity. Qed.

Lemma advance_with_self (x : Self) (st : St) (w : World) (ev : event) :
  advance (with_self x st) w ev = with_self x (advance st w ev).
Proof. reflexivity. Qed.

Lemma create_collection_absent (name : string) (size : Z) (st : St) :
  qdrant (world st) !! name = None ->
  create_collection name size st
  = match fault_at 0 st with
    | Some e => (Raise e, advance st (world st) (EvCreateCollection name size))
    | None =>
        (Ok tt,
         advance st (set_qdrant (world st)
                       (<[name := {| col_size := size; col_payload_indexes := [];
                                     col_points := [] |}]> (qdrant (world st))))
                 (EvCreateCollection name size))
    end.
Proof.
  intros Habsent. unfold create_collection. rewrite external_run, Habsent.
  reflexivity.
Qed.

Lemma create_payload_index_size (name field : string) (st : St) (c : Collection) :
  qdrant (world st) !! name = Some c ->
  exists c',
    qdrant (world (create_payload_index name field st).2) !! name = Some c'
    /\ col_size c' = col_size c.
Proof.
  intros Hc. unfold create_payload_index. rewrite external_run.
  destruct (fault_at 0 st); [exists c; split; [exact Hc | reflexivity]|].
  unfold on_collection. rewrite Hc. cbn beta iota zeta. cbn [snd world advance].
  eexists. split; [apply lookup_insert_eq | reflexivity].
Qed.

(** The end of [_initialize_vector_store], from the payload index on. *)
Lemma initialize_tail (s3 : St) :
  exists r st',
    (try_except
       (create_payload_index (collection_name settings) "metadata.filename")
       (fun _ => mret tt);;
     external EvQdrantVectorStore (fun w => (Ok tt, w));;
     s ← get_self;
     set_self {| qdrant_client := qdrant_client s; vector_store := true |}) s3
    = (r, st')
    /\ trace st' = trace s3 ++ [EvCreatePayloadIndex (collection_name settings)
                                                    "metadata.filename";
                              EvQdrantVectorStore]
    /\ (forall c, qdrant (world s3) !! collection_name settings = Some c ->
          exists c', qdrant (world st') !! collection_name settings = Some c'
                     /\ col_size c' = col_size c).
Proof.
  unfold mbind at 1, M_bind at 1. rewrite swallow_run.
  pose proof (external_trace
                (EvCreatePayloadIndex (collection_name settings) "metadata.filename")
                (on_collection (collection_name settings) (fun c =>
                   (tt, {| col_size := col_size c;
                           col_payload_indexes := "metadata.filename" :: col_payload_indexes c;
                           col_points := col_points c |}))) s3) as Htr.
  fold (create_payload_index (collection_name settings) "metadata.filename") in Htr.
  pose proof (create_payload_index_size (collection_name settings)
                "metadata.filename" s3) as Hsz.
  set (s4 := (create_payload_index _ _ s3).2) in *.
  unfold mbind at 1, M_bind at 1. rewrite external_run.
  destruct (fault_at 0 s4).
  - eexists _, _. split; [reflexivity|]. split.
    + cbn [trace advance]. rewrite Htr, <- app_assoc. reflexivity.
    + exact Hsz.
  - eexists _, _. split; [reflexivity|]. split.
    + cbn [trace advance with_self]. rewrite Htr, <- app_assoc. reflexivity.
    + exact Hsz.
Qed.

Lemma initialize_creates (st : St) :
  qdrant (world st) !! collection_name settings = None ->
  answered 0 st -> answered 1 st ->
  exists r st',
    _initialize_vector_store st = (r, st')
    /\ trace st' = trace st ++ [EvQdrantClient; EvGetCollections; EvEmbedQuery "test";
                              EvCreateCollection (collection_name settings)
                                                 (dimension_at 2 st);
                              EvCreatePayloadIndex (collection_name settings)
                                                   "metadata.filename";
                              EvQdrantVectorStore]
    /\ (answered 3 st ->
        exists c, qdrant (world st') !! collection_name settings = Some c
                  /\ col_size c = dimension_at 2 st).
Proof.
  intros Habsent H0 H1.
  unfold _initialize_vector_store.
  unfold mbind at 1, M_bind at 1. rewrite external_answered by exact H0.
  cbn beta iota zeta.
  unfold mbind at 1, M_bind at 1, get_self at 1.
  unfold mbind at 1, M_bind at 1, set_self at 1.
  set (s0 := with_self _ (advance st (world st) EvQdrantClient)).
  assert (Hd : dimension_at 1 s0 = dimension_at 2 st).
  { unfold dimension_at, s0. now rewrite fault_at_with_self, fault_at_advance. }
  unfold mbind at 1, M_bind at 1.
  rewrite ensure_collection_absent;
    [| exact Habsent | exact (answered_advance 0 st _ _ H1)].
  rewrite Hd.
  rewrite create_collection_absent by exact Habsent.
  rewrite !fault_at_advance. unfold s0 at 1. rewrite fault_at_with_self, fault_at_advance.
  match goal with
  | |- context [?f (match ?x with Some e => (Raise e, ?a) | None => (Ok tt, ?b) end).2] =>
      set (s3 := (match x with Some e => (@Raise unit e, a) | None => (Ok tt, b) end).2)
  end.
  assert (Htr : trace s3 = trace st ++ [EvQdrantClient; EvGetCollections;
                   EvEmbedQuery "test";
                   EvCreateCollection (collection_name settings) (dimension_at 2 st)]).
  { unfold s3. destruct (fault_at 3 st); cbn [snd trace advance with_self s0];
      rewrite <- !app_assoc; reflexivity. }
  destruct (initialize_tail s3) as (r & st' & Hrun & Htr' & Hsz).
  exists r, st'. split; [exact Hrun|]. split.
  - rewrite Htr', Htr, <- app_assoc. reflexivity.
  - intros H3. unfold answered in H3.
    destruct (Hsz {| col_size := dimension_at 2 st; col_payload_indexes := [];
                     col_points := [] |}) as (c' & Hc' & Hs).
    + unfold s3. rewrite H3. cbn [snd world advance set_qdrant qdrant].
      apply lookup_insert_eq.
    + exists c'. split; [exact Hc' | exact Hs].
Qed.

Lemma create_and_retry_dimension (documents : list Document) (st st' : St)
    (r : result unit) :
  create_and_retry documents st = (r, st') ->
  exists rest,
    trace st' = trace st ++ rest
    /\ forall name size, EvCreateCollection name size ∈ rest ->
         size = Z.of_nat (length (embed "test")).
Proof.
  unfold create_and_retry, mbind at 1, M_bind at 1, embed_query.
  rewrite external_run. destruct (fault_at 0 st) as [e|].
  - intros [= <- <-]. exists [EvEmbedQuery "test"]. split; [reflexivity|].
    intros name size Hin. apply list_elem_of_singleton in Hin. discriminate.
  - cbn beta iota zeta. set (s1 := advance st (world st) (EvEmbedQuery "test")).
    unfold mbind, M_bind, try_except.
    pose proof (external_trace
                  (EvCreateCollection (collection_name settings)
                     (Z.of_nat (length (embed "test"))))
                  (fun w => match qdrant w !! collection_name settings with
                            | Some _ => (Raise (Exception (already_exists_msg
                                                  (collection_name settings))), w)
                            | None => (Ok tt, set_qdrant w
                                 (<[collection_name settings :=
                                      {| col_size := Z.of_nat (length (embed "test"));
                                         col_payload_indexes := [];
                                         col_points := [] |}]> (qdrant w)))
                            end) s1) as H2.
    fold (create_collection (collection_name settings)
            (Z.of_nat (length (embed "test")))) in H2.
    destruct (create_collection _ _ s1) as [[[]|ce] s2]; cbn [snd] in H2.
    + pose proof (external_trace (EvAddDocuments (collection_name settings) documents)
                    (on_collection (collection_name settings)
                       (fun c => (tt, upsert documents c))) s2) as H3.
      fold (add_documents (collection_name settings) documents) in H3.
      destruct (add_documents _ documents s2) as [r3 s3]; cbn [snd] in H3.
      intros Hrun. assert (st' = s3) as -> by (destruct r3; congruence).
      eexists. split.
      * rewrite H3, H2. unfold s1. cbn [trace advance]. rewrite <- !app_assoc.
        reflexivity.
      * intros name size Hin. cbn in Hin.
        repeat (apply elem_of_cons in Hin as [Hin|Hin]; [congruence|]).
        inversion Hin.
    + destruct (negb (is_already_exists_error ce)).
      * intros [= <- <-]. eexists. split.
        -- rewrite H2. unfold s1. cbn [trace advance]. rewrite <- !app_assoc.
           reflexivity.
        -- intros name size Hin. cbn in Hin.
           repeat (apply elem_of_cons in Hin as [Hin|Hin]; [congruence|]).
           inversion Hin.
      * pose proof (external_trace (EvAddDocuments (collection_name settings) documents)
                      (on_collection (collection_name settings)
                         (fun c => (tt, upsert documents c))) s2) as H3.
        fold (add_documents (collection_name settings) documents) in H3.
        unfold mret at 1, M_ret at 1.
        destruct (add_documents _ documents s2) as [r3 s3]; cbn [snd] in H3.
        intros Hrun. assert (st' = s3) as -> by (destruct r3; congruence).
        eexists. split.
        -- rewrite H3, H2. unfold s1. cbn [trace advance]. rewrite <- !app_assoc.
           reflexivity.
        -- intros name size Hin. cbn in Hin.
           repeat (apply elem_of_cons in Hin as [Hin|Hin]; [congruence|]).
           inversion Hin.
Qed.

Lemma create_and_retry_tolerates (documents : list Document) (st : St) (e : exn) :
  answered 0 st ->
  fault_at 1 st = Some e ->
  is_already_exists_error e = true ->
  create_and_retry documents st
  = add_documents (collection_name settings) documents
      (advance (advance st (world st) (EvEmbedQuery "test")) (world st)
         (EvCreateCollection (collection_name settings)
            (Z.of_nat (length (embed "test"))))).
Proof.
  intros H0 H1 Htol.
  unfold create_and_retry, mbind at 1, M_bind at 1, embed_query.
  rewrite external_answered by exact H0. cbn beta iota zeta.
  unfold mbind, M_bind, try_except, create_collection.
  rewrite (external_failed _ _ _ e) by (now rewrite fault_at_advance).
  rewrite Htol. reflexivity.
Qed.

Lemma create_and_retry_race (documents : list Document) (st : St) (c : Collection) :
  qdrant (world st) !! collection_name settings = Some c ->
  answered 0 st -> answered 1 st -> answered 2 st ->
  exists st',
    create_and_retry documents st = (Ok tt, st')
    /\ qdrant (world st') !! collection_name settings = Some (upsert documents c)
    /\ trace st' = trace st ++ [EvEmbedQuery "test";
                              EvCreateCollection (collection_name settings)
                                (Z.of_nat (length (embed "test")));
                              EvAddDocuments (collection_name settings) documents].
Proof.
  intros Hc H0 H1 H2.
  unfold create_and_retry, mbind at 1, M_bind at 1, embed_query.
  rewrite external_answered by exact H0. cbn beta iota zeta.
  unfold mbind, M_bind, try_except, create_collection.
  rewrite external_answered by (now apply answered_advance).
  cbn [world advance]. rewrite Hc. cbn beta iota zeta.
  rewrite already_exists_is_tolerated. cbn [negb].
  unfold mret at 1, M_ret at 1, add_documents.
  rewrite external_answered by (now do 2 apply answered_advance).
  unfold on_collection. cbn [world advance]. rewrite Hc. cbn beta iota zeta.
  eexists. split; [reflexivity|]. split.
  - cbn [world advance set_qdrant qdrant]. apply lookup_insert_eq.
  - cbn [trace advance]. rewrite <- !app_assoc. reflexivity.
Qed.

Lemma index_documents_bootstrap (p : string) (documents : list Document) (st : St) :
  Py.truthy p = true ->
  qdrant (world st) !! collection_name settings = None ->
  (forall n, answered n st) ->
  exists st',
    index_documents (Some p) documents st = (Ok tt, st')
    /\ qdrant (world st') !! collection_name settings
       = Some {| col_size := Z.of_nat (length (embed "test"));
                 col_payload_indexes := [];
                 col_points := map to_point documents |}
    /\ trace st' = trace st ++ [EvDelete (collection_name settings) (basename p);
                              EvAddDocuments (collection_name settings) documents;
                              EvEmbedQuery "test";
                              EvCreateCollection (collection_name settings)
                                (Z.of_nat (length (embed "test")));
                              EvAddDocuments (collection_name settings) documents].
Proof.
  intros Hp Habsent Hall.
  unfold index_documents, try_except.
  rewrite (delete_then_add_run p documents st Hp).
  unfold delete_by_filename. rewrite external_answered by apply Hall.
  unfold on_collection at 1. rewrite Habsent. cbn beta iota zeta. cbn [snd].
  unfold add_documents at 1. rewrite external_answered by apply answered_advance, Hall.
  unfold on_collection at 1. cbn [world advance]. rewrite Habsent.
  cbn beta iota zeta. rewrite not_found_is_missing.
  unfold create_and_retry, mbind at 1, M_bind at 1, embed_query.
  rewrite external_answered by (do 2 apply answered_advance; apply Hall).
  cbn beta iota zeta.
  unfold mbind, M_bind, try_except.
  rewrite create_collection_absent by exact Habsent.
  rewrite !fault_at_advance. rewrite (Hall 3%nat).
  unfold add_documents. rewrite external_answered by (do 4 apply answered_advance; apply Hall).
  unfold on_collection. cbn [world advance set_qdrant qdrant].
  rewrite lookup_insert_eq. cbn beta iota zeta.
  eexists. split; [reflexivity|]. split.
  - cbn [world advance set_qdrant qdrant]. rewrite lookup_insert_eq.
    reflexivity.
  - cbn [trace advance]. rewrite <- !app_assoc. reflexivity.
Qed.

(** C8 (as amended): when the collection is found absent, the collection
    is created with the length of the vector returned by embedding
    ["test"]: always so in [load_and_index_documents], where a failing
    embedding call leaves the collection uncreated, and in
    [_initialize_vector_store] whenever the embedding call succeeds, the
    fallback 768 being used when it raises.  A creation that fails because
    the collection already exists is treated as success and the insert
    goes on. *)
Theorem collection_bootstrap :
  (forall st,
     qdrant (world st) !! collection_name settings = None ->
     answered 0 st -> answered 1 st ->
     exists r st',
       _initialize_vector_store st = (r, st')
       /\ trace st' = trace st ++ [EvQdrantClient; EvGetCollections; EvEmbedQuery "test";
                                 EvCreateCollection (collection_name settings)
                                                    (dimension_at 2 st);
                                 EvCreatePayloadIndex (collection_name settings)
                                                      "metadata.filename";
                                 EvQdrantVectorStore]
       /\ (answered 2 st -> dimension_at 2 st = Z.of_nat (length (embed "test")))
       /\ (forall e, fault_at 2 st = Some e -> dimension_at 2 st = 768)
       /\ (answered 3 st ->
           exists c, qdrant (world st') !! collection_name settings = Some c
                     /\ col_size c = dimension_at 2 st))
  /\ (forall p documents st,
        Py.truthy p = true ->
        qdrant (world st) !! collection_name settings = None ->
        (forall n, answered n st) ->
        exists st',
          index_documents (Some p) documents st = (Ok tt, st')
          /\ qdrant (world st') !! collection_name settings
             = Some {| col_size := Z.of_nat (length (embed "test"));
                       col_payload_indexes := [];
                       col_points := map to_point documents |})
  /\ (forall documents st r st',
        create_and_retry documents st = (r, st') ->
        exists rest,
          trace st' = trace st ++ rest
          /\ forall name size, EvCreateCollection name size ∈ rest ->
               size = Z.of_nat (length (embed "test")))
  /\ (forall documents st c,
        qdrant (world st) !! collection_name settings = Some c ->
        answered 0 st -> answered 1 st -> answered 2 st ->
        exists st',
          create_and_retry documents st = (Ok tt, st')
          /\ qdrant (world st') !! collection_name settings = Some (upsert documents c)
          /\ trace st' = trace st ++ [EvEmbedQuery "test";
                                    EvCreateCollection (collection_name settings)
                                      (Z.of_nat (length (embed "test")));
                                    EvAddDocuments (collection_name settings) documents])
  /\ (forall documents st e,
        answered 0 st ->
        fault_at 1 st = Some e ->
        is_already_exists_error e = true ->
        create_and_retry documents st
        = add_documents (collection_name settings) documents
            (advance (advance st (world st) (EvEmbedQuery "test")) (world st)
               (EvCreateCollection (collection_name settings)
                  (Z.of_nat (length (embed "test")))))).
Proof.
  split; [|split; [|split; [|split]]].
  - intros st Habsent H0 H1.
    destruct (initialize_creates st Habsent H0 H1) as (r & st' & Hrun & Htr & Hsz).
    exists r, st'. repeat split; auto.
    + intros H2. unfold dimension_at. now rewrite H2.
    + intros e He. unfold dimension_at. now rewrite He.
  - intros p documents st Hp Habsent Hall.
    destruct (index_documents_bootstrap p documents st Hp Habsent Hall)
      as (st' & Hrun & Hc & _).
    eauto.
  - intros documents st r st'. apply create_and_retry_dimension.
  - apply create_and_retry_race.
  - apply create_and_retry_tolerates.
Qed.

(** *** The service object after construction *)

Lemma initialize_ready (st st' : St) :
  _initialize_vector_store st = (Ok tt, st') ->
  vector_store (self st') = true /\ qdrant_client (self st') = true.
Proof.
  unfold _initialize_vector_store.
  unfold mbind at 1, M_bind at 1.
  destruct (external EvQdrantClient _ st) as [[[]|e] s1]; [|discriminate].
  unfold mbind at 1, M_bind at 1, get_self at 1.
  unfold mbind at 1, M_bind at 1, set_self at 1.
  set (s1' := with_self _ s1).
  unfold mbind at 1, M_bind at 1.
  destruct (ensure_collection s1') as [[[]|e] s2] eqn:E2; [|discriminate].
  apply (respects_ensure_collection same_self _ same_self_across) in E2.
  unfold mbind at 1, M_bind at 1. rewrite swallow_run.
  pose proof (respects_create_payload_index same_self _ same_self_across
                (collection_name settings) "metadata.filename" s2) as E3.
  destruct (create_payload_index _ _ s2) as [r3 s3]. specialize (E3 _ _ eq_refl).
  cbn [snd].
  unfold mbind at 1, M_bind at 1.
  pose proof (respects_external same_self _ same_self_across EvQdrantVectorStore
                (fun w => (Ok tt, w)) (fun w => eq_refl) s3) as E4.
  destruct (external EvQdrantVectorStore _ s3) as [[[]|e] s4]; [|discriminate].
  specialize (E4 _ _ eq_refl).
  unfold mbind, M_bind, get_self, set_self. intros [= <-].
  cbn [self with_self vector_store qdrant_client].
  unfold same_self in *. rewrite E4, E3, E2. split; reflexivity.
Qed.

Lemma service_ready (st st' : St) :
  RAGService__init__ st = (Ok tt, st') ->
  vector_store (self st') = true /\ qdrant_client (self st') = true.
Proof.
  unfold RAGService__init__. destruct (negb _); [discriminate|].
  unfold mbind, M_bind, set_self. apply initialize_ready.
Qed.

(* ===================================================================== *)
(** ** Further properties of the service and its routes                   *)
(* ===================================================================== *)

(** *** Paths *)

Lemma take_drop (n : nat) (s : string) : Py.take n s +:+ Py.drop n s = s.
Proof.
  revert s; induction n as [|n IH]; intros [|c r]; try reflexivity.
  change (String c (Py.take n r +:+ Py.drop n r) = String c r).
  f_equal. apply IH.
Qed.

Lemma drop_app_length (a b : string) : Py.drop (String.length a) (a +:+ b) = b.
Proof.
  induction a as [|c a IH]; [now destruct b|].
  change (Py.drop (String.length a) (a +:+ b) = b). exact IH.
Qed.

Lemma append_assoc (a b c : string) : (a +:+ b) +:+ c = a +:+ b +:+ c.
Proof.
  induction a as [|x a IH]; [reflexivity|].
  change (String x ((a +:+ b) +:+ c) = String x (a +:+ b +:+ c)).
  now rewrite IH.
Qed.

Lemma no_slash_cons (c : ascii) (r : string) :
  Py.contains "/" (String c r) = false ->
  Ascii.eqb "/" c = false /\ Py.contains "/" r = false.
Proof.
  intros H. change (Py.startswith (String c r) "/" || Py.contains "/" r = false) in H.
  apply orb_false_iff in H as [Hs Hr]. split; [|exact Hr].
  change ((if Ascii.eqb "/" c then Py.startswith r "" else false) = false) in Hs.
  destruct (Ascii.eqb "/" c); [destruct r; discriminate | reflexivity].
Qed.

Lemma no_slash_rfind (name : string) :
  Py.contains "/" name = false -> Py.rfind "/" name = -1.
Proof.
  induction name as [|c r IH]; intros H; [reflexivity|].
  apply no_slash_cons in H as [Hc Hr]. cbn [Py.rfind]. rewrite (IH Hr).
  rewrite Ascii.eqb_sym, Hc. reflexivity.
Qed.

Lemma rfind_after_slash (a name : string) :
  Py.contains "/" name = false ->
  Py.rfind "/" (a +:+ "/" +:+ name) = Z.of_nat (String.length a).
Proof.
  intros H. induction a as [|c a IH].
  - change (Py.rfind "/" (String "/" name) = 0).
    cbn [Py.rfind]. rewrite (no_slash_rfind name H). reflexivity.
  - change (Py.rfind "/" (String c (a +:+ "/" +:+ name))
            = Z.of_nat (S (String.length a))).
    cbn [Py.rfind]. rewrite IH.
    rewrite (proj2 (Z.leb_le 0 _)) by lia. lia.
Qed.

Lemma endswith_slash (d : string) :
  Py.endswith d "/" = true -> exists a, d = a +:+ "/".
Proof.
  unfold Py.endswith. intros H. apply andb_true_iff in H as [_ H].
  apply String.eqb_eq in H.
  exists (Py.take (String.length d - String.length "/") d).
  transitivity (Py.take (String.length d - String.length "/") d
                +:+ Py.drop (String.length d - String.length "/") d);
    [symmetry; apply take_drop | now rewrite H].
Qed.

Lemma basename_after_slash (a name : string) :
  Py.contains "/" name = false -> basename (a +:+ "/" +:+ name) = name.
Proof.
  intros H. unfold basename. rewrite (rfind_after_slash a name H).
  replace (Z.to_nat (Z.of_nat (String.length a) + 1))
    with (String.length (a +:+ "/")) by (rewrite append_length; simpl; lia).
  rewrite <- append_assoc. apply drop_app_length.
Qed.

Lemma path_join_plain (d name : string) :
  Py.contains "/" name = false -> path_join d name = dir_prefix d +:+ name.
Proof.
  intros H. unfold path_join, dir_prefix.
  assert (Hs : Py.startswith name "/" = false).
  { destruct name as [|c r]; [reflexivity|].
    apply no_slash_cons in H as [Hc _].
    change ((if Ascii.eqb "/" c then Py.startswith r "" else false) = false).
    now rewrite Hc. }
  rewrite Hs. destruct (negb (Py.truthy d) || Py.endswith d "/");
    [reflexivity | now rewrite append_assoc].
Qed.

(** X1: joining a directory and a name without a slash and taking the
    base name gives the name back, so the name the versioning delete
    filters on after an upload is the uploaded file's name. *)
Theorem basename_path_join (d name : string) :
  Py.contains "/" name = false -> basename (path_join d name) = name.
Proof.
  intros H. rewrite (path_join_plain d name H). unfold dir_prefix.
  destruct (negb (Py.truthy d)) eqn:Ht; simpl orb.
  - apply negb_true_iff in Ht. unfold Py.truthy in Ht.
    apply negb_false_iff, String.eqb_eq in Ht. subst d.
    change (basename name = name).
    unfold basename. rewrite (no_slash_rfind name H). now destruct name.
  - destruct (Py.endswith d "/") eqn:He.
    + apply endswith_slash in He as [a ->]. rewrite append_assoc.
      now apply basename_after_slash.
    + rewrite append_assoc. now apply basename_after_slash.
Qed.

(** *** Stamping the loaded documents *)

Lemma or_unknown_truthy (file_path : option string) :
  Py.truthy (or_unknown file_path) = true.
Proof.
  unfold or_unknown. destruct file_path as [p|]; [|reflexivity].
  destruct (Py.truthy p) eqn:E; [exact E | reflexivity].
Qed.

(** X2: every stamped document has a source and carries the base name of
    that source as filename, with text and page untouched; stamping a
    stamped document again, for whatever path, changes nothing. *)
Theorem stamp_idempotent (file_path file_path' : option string) (doc : Document) :
  stamp file_path' (stamp file_path doc) = stamp file_path doc
  /\ page_content (stamp file_path doc) = page_content doc
  /\ md_page (metadata (stamp file_path doc)) = md_page (metadata doc)
  /\ exists source,
       md_source (metadata (stamp file_path doc)) = Some source
       /\ md_filename (metadata (stamp file_path doc)) = Some (basename source)
       /\ (forall src, md_source (metadata doc) = Some src -> source = src)
       /\ (md_source (metadata doc) = None -> source = or_unknown file_path).
Proof.
  destruct doc as [content [[src|] fn pg]]; unfold stamp; cbn.
  - destruct (Py.truthy src) eqn:E; cbn; rewrite ?E; cbn;
      (split; [reflexivity|]; split; [reflexivity|]; split; [reflexivity|];
       exists src; repeat split; [congruence | discriminate]).
  - rewrite or_unknown_truthy. cbn.
    split; [reflexivity|]. split; [reflexivity|]. split; [reflexivity|].
    exists (or_unknown file_path). repeat split. discriminate.
Qed.

(** *** Loading and indexing *)

Lemma load_raw_ok (file_path : option string) (st st1 : St) (raw : list Document) :
  load_raw file_path st = (Ok raw, st1) ->
  exists loader, st1 = advance st (world st) (EvLoad loader).
Proof.
  unfold load_raw. rewrite external_run.
  destruct (fault_at 0 st); [discriminate|].
  destruct (loader_load _ _); intros [= _ <-]. eexists. reflexivity.
Qed.

(** X3: when the loaded documents split into no chunk (an empty file,
    say), or no vector store is attached, [load_and_index_documents]
    makes no call to the index at all -- the versioning delete included --
    and returns the counts: whatever the index held stays. *)
Theorem index_skipped_without_chunks (file_path : option string) (st st1 : St)
    (raw : list Document) :
  load_raw file_path st = (Ok raw, st1) ->
  split_documents (map (stamp file_path) raw) = [] \/ vector_store (self st) = false ->
  exists res loader,
    load_and_index_documents file_path st = (Ok res, st1)
    /\ raw_count res = Z.of_nat (length raw)
    /\ chunk_count res
       = Z.of_nat (length (split_documents (map (stamp file_path) raw)))
    /\ world st1 = world st
    /\ trace st1 = trace st ++ [EvLoad loader].
Proof.
  intros Hload Hskip.
  destruct (load_raw_ok file_path st st1 raw Hload) as [loader Hst1].
  unfold load_and_index_documents, mbind at 1, M_bind at 1. rewrite Hload.
  unfold mbind at 1, M_bind at 1, get_self.
  assert (Hc : vector_store (self st1)
               && negb (bool_decide (split_documents (map (stamp file_path) raw) = []))
               = false).
  { destruct Hskip as [Hnil | Hvs].
    - rewrite bool_decide_eq_true_2 by exact Hnil. apply andb_false_r.
    - subst st1. cbn [self advance]. now rewrite Hvs. }
  rewrite Hc. cbn [when]. unfold mbind, M_bind, mret, M_ret.
  eexists _, loader. split; [reflexivity|].
  cbn [raw_count chunk_count]. rewrite length_map.
  subst st1. repeat split.
Qed.

(** X4: a result of [load_and_index_documents] counts the loaded
    documents and the chunks, and lists every filename of a chunk once
    (["unknown"] for a chunk without one), whatever number of chunks share
    it. *)
Theorem index_result_counts (file_path : option string) (st st1 st' : St)
    (raw : list Document) (res : IndexResult) :
  load_raw file_path st = (Ok raw, st1) ->
  load_and_index_documents file_path st = (Ok res, st') ->
  raw_count res = Z.of_nat (length raw)
  /\ chunk_count res
     = Z.of_nat (length (split_documents (map (stamp file_path) raw)))
  /\ NoDup (files res)
  /\ (forall f, f ∈ files res <->
        exists doc, doc ∈ split_documents (map (stamp file_path) raw)
                    /\ default "unknown" (md_filename (metadata doc)) = f).
Proof.
  intros Hload.
  unfold load_and_index_documents, mbind at 1, M_bind at 1. rewrite Hload.
  unfold mbind at 1, M_bind at 1, get_self.
  unfold mbind, M_bind.
  destruct (when _ _ st1) as [[[]|e] st2]; [|discriminate].
  unfold mret, M_ret. intros [= <- <-]. cbn [raw_count chunk_count files].
  rewrite length_map. split; [reflexivity|]. split; [reflexivity|].
  split; [apply NoDup_elements|].
  intros f. rewrite elem_of_elements, elem_of_list_to_set, list_elem_of_fmap.
  split; intros (doc & H1 & H2); exists doc; auto.
Qed.


(** *** Queries leave the world alone *)

Lemma set_qdrant_id (w : World) (name : string) (c : Collection) :
  qdrant w !! name = Some c -> set_qdrant w (<[name := c]> (qdrant w)) = w.
Proof.
  intros Hc. destruct w as [f q]. unfold set_qdrant. cbn in *.
  now rewrite insert_id.
Qed.

Lemma retrieve_reads_only (name question : string) (k : Z) (st st' : St)
    (r : result (list Document)) :
  retrieve name question k st = (r, st') ->
  st' = advance st (world st) (EvRetrieve name question k).
Proof.
  unfold retrieve. rewrite external_run.
  destruct (fault_at 0 st); [intros [= _ <-]; reflexivity|].
  unfold on_collection. destruct (qdrant (world st) !! name) as [c|] eqn:Hc.
  - cbn beta iota zeta. rewrite (set_qdrant_id _ _ _ Hc). now intros [= _ <-].
  - now intros [= _ <-].
Qed.

Lemma check_collection_reads_only (st st1 : St) (r : result (option QueryResult)) :
  vector_store (self st) = true ->
  check_collection st = (r, st1) ->
  st1 = advance st (world st) EvGetCollections.
Proof.
  intros Hvs. rewrite (check_collection_ready st Hvs).
  unfold try_except, mbind, M_bind, get_collections. rewrite external_run.
  destruct (fault_at 0 st); [now intros [= _ <-]|].
  cbn beta iota zeta. destruct (negb _); now intros [= _ <-].
Qed.

Lemma answer_from_reads_only (question : string) (docs : list Document)
    (st st' : St) (r : result QueryResult) :
  answer_from question docs st = (r, st') ->
  world st' = world st /\ self st' = self st.
Proof.
  unfold answer_from. case_bool_decide.
  - now intros [= _ <-].
  - unfold mbind, M_bind, chain_invoke. rewrite external_run.
    destruct (fault_at 0 st); cbn beta iota zeta; now intros [= _ <-].
Qed.

(** X6: a query changes nothing: once the service is constructed,
    whatever [query] returns or raises, the file system, the index and the
    service object are as they were before. *)
Theorem query_reads_only (question : string) (k : Z) (st st' : St)
    (r : result QueryResult) :
  vector_store (self st) = true ->
  query question k st = (r, st') ->
  world st' = world st /\ self st' = self st.
Proof.
  intros Hvs. unfold query, mbind at 1, M_bind at 1.
  destruct (check_collection st) as [rc st1] eqn:Hc.
  apply (check_collection_reads_only st st1 rc Hvs) in Hc. subst st1.
  destruct rc as [[early|]|e]; try (now intros [= _ <-]).
  unfold mbind, M_bind, retrieve_or_return, try_except, mbind, M_bind.
  destruct (retrieve _ question k _) as [rr st2] eqn:Hr.
  apply retrieve_reads_only in Hr. subst st2.
  destruct rr as [docs|e].
  - intros Ha. apply answer_from_reads_only in Ha. exact Ha.
  - destruct (is_missing_error e); now intros [= _ <-].
Qed.

(** X7: how [query] sorts a failing retrieval: by the text of the error
    alone.  An error whose text contains ["not found"] in any letter case
    -- a provider's "Model Not Found" as well as a missing collection --
    is answered with the "no documents indexed" apology, also when the
    collection exists; any other error is raised as it is, and leaves the
    [query_rag] route as an HTTP 500. *)
Theorem retrieval_failure_sorted_by_text (question : string) (k : Z)
    (st st1 : St) (e : exn) :
  check_collection st = (Ok None, st1) ->
  fault_at 0 st1 = Some e ->
  (forall a b, is_missing_error (Exception (a +:+ "Not Found" +:+ b)) = true)
  /\ (is_missing_error e = true ->
      query question k st
      = (Ok no_documents_result,
         advance st1 (world st1) (EvRetrieve (collection_name settings) question k)))
  /\ (is_missing_error e = false ->
      query question k st
      = (Raise e,
         advance st1 (world st1) (EvRetrieve (collection_name settings) question k))
      /\ query_rag question k st
         = (Raise (HTTPException 500 ("Error processing query: " +:+ str_exn e)),
            advance st1 (world st1) (EvRetrieve (collection_name settings) question k))).
Proof.
  intros Hc Hf.
  assert (Hq : query question k st
               = (if is_missing_error e then mret no_documents_result else raise e)
                   (advance st1 (world st1)
                      (EvRetrieve (collection_name settings) question k))).
  { unfold query, mbind at 1, M_bind at 1. rewrite Hc.
    unfold mbind, M_bind, retrieve_or_return, try_except, mbind, M_bind, retrieve.
    rewrite (external_failed _ _ st1 e Hf). now destruct (is_missing_error e). }
  split; [|split].
  - intros a b. unfold is_missing_error, str_exn.
    apply orb_true_intro. right. rewrite !lower_app.
    apply contains_app_r, contains_here.
    change (Py.lower "Not Found") with "not found". apply startswith_app.
  - intros Hm. rewrite Hq, Hm. reflexivity.
  - intros Hm. split; [rewrite Hq, Hm; reflexivity|].
    unfold query_rag, try_except. rewrite Hq, Hm. reflexivity.
Qed.

(** *** Deleting: what is reported and what is left alone *)

Lemma str_http (status : Z) (detail : string) :
  str_exn (HTTPException status detail) = pretty status +:+ ": " +:+ detail.
Proof. reflexivity. Qed.

Lemma delete_document_never_raises (filename : string) (st : St) :
  exists b st', delete_document filename st = (Ok b, st').
Proof.
  unfold delete_document, try_except at 1.
  match goal with |- context [match ?m st with _ => _ end] => destruct (m st) as [[b|e] s'] end.
  - eexists _, _. reflexivity.
  - eexists _, _. reflexivity.
Qed.

(** X8: [delete_document] never raises, in whatever state the service
    object is, and the delete route turns its verdict into the answer:
    the success message for [True], and for [False] an HTTP 500 whose
    detail is the doubly wrapped "Error deleting document: 500: Failed to
    delete document". *)
Theorem delete_route_outcome (filename : string) (st : St) :
  exists b st',
    delete_document filename st = (Ok b, st')
    /\ delete_document_route filename st
       = (if b then Ok ("Document " +:+ filename +:+ " deleted successfully")
          else Raise (HTTPException 500
                        "Error deleting document: 500: Failed to delete document"),
          st').
Proof.
  destruct (delete_document_never_raises filename st) as (b & st' & Hd).
  exists b, st'. split; [exact Hd|].
  unfold delete_document_route, try_except, mbind at 1, M_bind at 1.
  rewrite Hd. destruct b; reflexivity.
Qed.

Lemma remove_file_world (p : string) (st st1 : St) (r : result unit) :
  remove_file p st = (r, st1) ->
  qdrant (world st1) = qdrant (world st)
  /\ forall p', p' ≠ p -> fs (world st1) !! p' = fs (world st) !! p'.
Proof.
  unfold remove_file, os_path_exists, get_world, mbind, M_bind, mret, M_ret, when.
  case_bool_decide; [|intros [= _ <-]; auto].
  unfold os_remove. rewrite external_run.
  destruct (fault_at 0 st); [intros [= _ <-]; auto|].
  destruct (fs (world st) !! p) as [[c|]|]; intros [= _ <-]; cbn; auto.
  split; [reflexivity|]. intros p' Hne. now apply lookup_delete_ne.
Qed.

(** X9: deleting a document touches nothing else, whether it succeeds or
    not: every other file is as it was, every other collection is as it
    was, and the collection keeps its dimension and every point whose
    filename is not the deleted one. *)
Theorem delete_leaves_others (filename : string) (st st' : St) (r : result bool) :
  vector_store (self st) = true ->
  qdrant_client (self st) = true ->
  delete_document filename st = (r, st') ->
  (forall p, p ≠ path_join (documents_dir settings) filename ->
     fs (world st') !! p = fs (world st) !! p)
  /\ (forall name, name ≠ collection_name settings ->
        qdrant (world st') !! name = qdrant (world st) !! name)
  /\ (forall c, qdrant (world st) !! collection_name settings = Some c ->
        exists c',
          qdrant (world st') !! collection_name settings = Some c'
          /\ col_size c' = col_size c
          /\ forall pt, pt ∈ col_points c -> has_filename filename pt = false ->
               pt ∈ col_points c').
Proof.
  intros Hvs Hqc. rewrite (delete_document_steps filename st Hvs Hqc).
  destruct (remove_file _ st) as [r1 st1] eqn:Hrm.
  apply remove_file_world in Hrm as [Hq Hfs].
  destruct r1 as [[]|e1].
  - unfold delete_by_filename. rewrite external_run.
    destruct (fault_at 0 st1).
    + intros [= _ <-]. cbn [world advance].
      split; [exact Hfs|]. split; [intros name _; now rewrite Hq|].
      intros c0 Hc0. exists c0. split; [now rewrite Hq | auto].
    + unfold on_collection.
      destruct (qdrant (world st1) !! collection_name settings) as [c|] eqn:Hc.
      * cbn beta iota zeta. intros [= _ <-]. cbn [world advance set_qdrant fs qdrant].
        split; [exact Hfs|]. split.
        -- intros name Hne. rewrite lookup_insert_ne by congruence. now rewrite Hq.
        -- intros c0 Hc0. rewrite <- Hq, Hc in Hc0. injection Hc0 as <-.
           exists (purge filename c). split; [apply lookup_insert_eq|].
           split; [reflexivity|]. intros pt Hpt Hhas.
           apply list_elem_of_In, filter_In. split; [now apply list_elem_of_In|].
           now rewrite Hhas.
      * intros [= _ <-]. cbn [world advance].
        split; [exact Hfs|]. split; [intros name _; now rewrite Hq|].
        intros c0 Hc0. exists c0. split; [now rewrite Hq | auto].
  - intros [= _ <-].
    split; [exact Hfs|]. split; [intros name _; now rewrite Hq|].
    intros c0 Hc0. exists c0. split; [now rewrite Hq | auto].
Qed.

(** *** The routes and their errors *)

Lemma wrapped_500 {A : Type} (body : M A) (prefix : string) (st st' : St) (e : exn) :
  try_except body (fun e => raise (HTTPException 500 (prefix +:+ str_exn e))) st
  = (Raise e, st') ->
  exists detail, e = HTTPException 500 (prefix +:+ detail).
Proof.
  unfold try_except. destruct (body st) as [[a|e0] s']; [discriminate|].
  unfold raise. intros [= <- _]. eauto.
Qed.

(** X10: whatever goes wrong in the query, upload, list and delete
    routes leaves them as an HTTP 500 whose detail starts with the route's
    own prefix.  This holds for the upload cap too: the HTTP 400 raised by
    the check is caught by the route's own handler, and the client gets a
    500 that quotes it. *)
Theorem routes_raise_500 (st : St) :
  (forall question k e st',
     query_rag question k st = (Raise e, st') ->
     exists detail, e = HTTPException 500 ("Error processing query: " +:+ detail))
  /\ (forall filename content e st',
        upload_file filename content st = (Raise e, st') ->
        exists detail, e = HTTPException 500 ("Error uploading file: " +:+ detail))
  /\ (forall e st',
        list_documents st = (Raise e, st') ->
        exists detail, e = HTTPException 500 ("Error listing documents: " +:+ detail))
  /\ (forall filename e st',
        delete_document_route filename st = (Raise e, st') ->
        exists detail, e = HTTPException 500 ("Error deleting document: " +:+ detail))
  /\ (forall filename content,
        20 <= Z.of_nat (length (stored_documents (world st))) ->
        answered 0 st ->
        exists st',
          upload_file filename content st
          = (Raise (HTTPException 500
               "Error uploading file: 400: File upload limit reached. Maximum 20 files allowed."),
             st')).
Proof.
  split; [|split; [|split; [|split]]].
  - intros question k e st'. apply wrapped_500.
  - intros filename content e st'. apply wrapped_500.
  - intros e st'. apply wrapped_500.
  - intros filename e st'. apply wrapped_500.
  - intros filename content Hcap Hans.
    rewrite (upload_rejected filename content st Hcap).
    unfold rejection. rewrite Hans. eexists. reflexivity.
Qed.

(** *** Listing the documents *)

Lemma startswith_split (s pre : string) :
  Py.startswith s pre = true -> s = pre +:+ Py.drop (String.length pre) s.
Proof.
  revert s. induction pre as [|a pre IH]; intros s H; [now destruct s|].
  destruct s as [|b s]; [discriminate|].
  change ((if Ascii.eqb a b then Py.startswith s pre else false) = true) in H.
  destruct (Ascii.eqb a b) eqn:E; [|discriminate].
  apply Ascii.eqb_eq in E. subst b.
  change (String a s = String a (pre +:+ Py.drop (String.length pre) s)).
  f_equal. now apply IH.
Qed.

Lemma child_name_path (d p n : string) :
  child_name d p = Some n -> p = dir_prefix d +:+ n.
Proof.
  unfold child_name. destruct (Py.startswith p (dir_prefix d)) eqn:Hs; [|discriminate].
  destruct (_ && _); [|discriminate]. intros [= <-]. now apply startswith_split.
Qed.

Lemma child_name_plain (d name : string) :
  Py.truthy name = true -> Py.contains "/" name = false ->
  child_name d (path_join d name) = Some name.
Proof.
  intros Ht Hs. rewrite (path_join_plain d name Hs). unfold child_name.
  rewrite startswith_app, drop_app_length, Ht, Hs. reflexivity.
Qed.

Lemma NoDup_omap_inj {A B : Type} (f : A -> option B) (l : list A) :
  (forall x y b, f x = Some b -> f y = Some b -> x = y) ->
  NoDup l -> NoDup (omap f l).
Proof.
  intros Hinj. induction 1 as [|x l Hx Hl IH]; [constructor|].
  cbn. destruct (f x) as [b|] eqn:Hb; [|exact IH].
  constructor; [|exact IH].
  intros Hin. apply list_elem_of_omap in Hin as (y & Hy & Hfy).
  assert (x = y) by (eapply Hinj; eauto). subst y. contradiction.
Qed.

Lemma listdir_names_NoDup (d : string) (m : gmap string entry) :
  NoDup (listdir_names d m).
Proof.
  unfold listdir_names. apply NoDup_omap_inj; [|apply NoDup_fst_map_to_list].
  intros p1 p2 n H1 H2. apply child_name_path in H1, H2. congruence.
Qed.

Lemma doc_info_filename (w : World) (n : string) (d : DocInfo) :
  doc_info w n = Some d ->
  di_filename d = n
  /\ di_path d = path_join (documents_dir settings) n
  /\ exists content,
       fs w !! path_join (documents_dir settings) n = Some (File content)
       /\ di_size d = Py.len content.
Proof.
  unfold doc_info.
  destruct (fs w !! path_join (documents_dir settings) n) as [[c|]|];
    try discriminate.
  intros [= <-]. cbn. eauto.
Qed.

Lemma doc_infos_NoDup (w : World) (names : list string) :
  NoDup names -> NoDup (map di_filename (omap (doc_info w) names)).
Proof.
  induction 1 as [|n names Hn Hnames IH]; [constructor|].
  cbn. destruct (doc_info w n) as [d|] eqn:Hd; [|exact IH].
  cbn. constructor; [|exact IH].
  apply doc_info_filename in Hd as [-> _]. intros Hin.
  apply list_elem_of_fmap in Hin as (d' & Heq & Hd').
  apply list_elem_of_omap in Hd' as (n' & Hn' & Hdi).
  apply doc_info_filename in Hdi as [Hf _]. congruence.
Qed.

(** X11: what [get_document_list] reports.  Without a documents
    directory it answers the empty list and makes no call.  Otherwise
    every entry is a regular file of the directory, with its joined path
    and the length of its content -- directories and anything else are
    skipped -- no filename is reported twice, and nothing is changed. *)
Theorem document_list_entries (st : St) :
  (fs (world st) !! documents_dir settings = None ->
   get_document_list st = (Ok [], st))
  /\ (forall docs st',
        get_document_list st = (Ok docs, st') ->
        world st' = world st
        /\ NoDup (map di_filename docs)
        /\ forall d, d ∈ docs ->
             di_path d = path_join (documents_dir settings) (di_filename d)
             /\ exists content,
                  fs (world st) !! di_path d = Some (File content)
                  /\ di_size d = Py.len content).
Proof.
  split.
  - intros Hnone.
    unfold get_document_list, os_path_exists, get_world, mbind, M_bind, mret, M_ret.
    rewrite bool_decide_eq_false_2; [reflexivity|].
    rewrite Hnone. intros [x Hx]. discriminate.
  - intros docs st'.
    unfold get_document_list, os_path_exists, get_world, mbind, M_bind, mret, M_ret.
    case_bool_decide as Hdir.
    + unfold os_listdir. rewrite external_run.
      destruct (fault_at 0 st); [discriminate|].
      destruct (fs (world st) !! documents_dir settings) as [[c|]|]; try discriminate.
      cbn beta iota zeta. intros [= <- <-]. cbn [world advance].
      split; [reflexivity|]. split.
      * apply doc_infos_NoDup, listdir_names_NoDup.
      * intros d Hd. apply list_elem_of_omap in Hd as (n & _ & Hdi).
        apply doc_info_filename in Hdi as (Hf & Hp & content & Hc & Hsz).
        rewrite Hp, Hf. split; [reflexivity|]. exists content. auto.
    + intros [= <- <-]. split; [reflexivity|]. split; [constructor|].
      intros d Hd. inversion Hd.
Qed.

(** *** Fetching a document *)

Lemma read_file_answered (read_text : string -> result string) (p : string)
    (st : St) :
  answered 0 st ->
  read_file read_text p st
  = (match fs (world st) !! p with
     | Some (File content) => read_text content
     | Some Dir => Raise (Exception ("[Errno 21] Is a directory: '" +:+ p +:+ "'"))
     | None => Raise (Exception ("[Errno 2] No such file or directory: '"
                                 +:+ p +:+ "'"))
     end,
     {| self := self st; world := world st; faults := tail (faults st);
        trace := trace st |}).
Proof.
  unfold answered, fault_at, read_file. destruct st as [slf w fl tr]. cbn.
  destruct fl as [|[e|] fl]; cbn; try discriminate; intros _;
    destruct (fs w !! p) as [[c|]|]; reflexivity.
Qed.

Lemma get_document_read (read_text : string -> result string)
    (filename : string) (st : St) :
  is_Some (fs (world st) !! path_join (documents_dir settings) filename) ->
  Py.endswith filename ".pdf" = false ->
  answered 0 st ->
  get_document read_text filename st
  = (match match fs (world st) !! path_join (documents_dir settings) filename with
           | Some (File content) => read_text content
           | _ => Raise (Exception ("[Errno 21] Is a directory: '"
                                    +:+ path_join (documents_dir settings) filename
                                    +:+ "'"))
           end with
     | Ok text => Ok (DocumentContent filename text)
     | Raise (HTTPException a b) => Raise (HTTPException a b)
     | Raise (Exception msg) =>
         Raise (HTTPException 500 ("Error retrieving document: " +:+ msg))
     end,
     {| self := self st; world := world st; faults := tail (faults st);
        trace := trace st |}).
Proof.
  intros Hsome Hpdf Hans.
  unfold get_document, try_except, os_path_exists, get_world, mbind, M_bind,
    mret, M_ret.
  rewrite bool_decide_eq_true_2 by exact Hsome.
  cbn [negb]. rewrite Hpdf, (read_file_answered read_text _ st Hans).
  destruct Hsome as [[c|] Hc]; rewrite Hc; [|reflexivity].
  destruct (read_text c) as [t|[m|x y]]; reflexivity.
Qed.

(** X12: what [get_document] answers.  For a path that does not exist it
    raises HTTP 404, which its first handler lets through as it is.  For
    a name ending in [.pdf] whose path exists it answers a file response
    on the path without opening anything -- a directory included.
    Otherwise it reads the file: the decoded text is the content of the
    answer, and a failure to read or decode leaves as an HTTP 500. *)
Theorem get_document_outcomes (read_text : string -> result string)
    (filename : string) (st : St) :
  (fs (world st) !! path_join (documents_dir settings) filename = None ->
   get_document read_text filename st
   = (Raise (HTTPException 404 "Document not found"), st))
  /\ (is_Some (fs (world st) !! path_join (documents_dir settings) filename) ->
      Py.endswith filename ".pdf" = true ->
      get_document read_text filename st
      = (Ok (FileResponse (path_join (documents_dir settings) filename)
                          "application/pdf" filename), st))
  /\ (forall content,
        fs (world st) !! path_join (documents_dir settings) filename
        = Some (File content) ->
        Py.endswith filename ".pdf" = false ->
        answered 0 st ->
        exists st',
          world st' = world st /\ trace st' = trace st
          /\ (forall text, read_text content = Ok text ->
                get_document read_text filename st
                = (Ok (DocumentContent filename text), st'))
          /\ (forall msg, read_text content = Raise (Exception msg) ->
                get_document read_text filename st
                = (Raise (HTTPException 500 ("Error retrieving document: " +:+ msg)),
                   st')))
  /\ (fs (world st) !! path_join (documents_dir settings) filename = Some Dir ->
      Py.endswith filename ".pdf" = false ->
      answered 0 st ->
      exists st',
        get_document read_text filename st
        = (Raise (HTTPException 500
                    ("Error retrieving document: [Errno 21] Is a directory: '"
                     +:+ path_join (documents_dir settings) filename +:+ "'")),
           st')).
Proof.
  split; [|split; [|split]].
  - intros Hnone.
    unfold get_document, try_except, os_path_exists, get_world, mbind, M_bind,
      mret, M_ret.
    rewrite bool_decide_eq_false_2 by (rewrite Hnone; intros [x Hx]; discriminate).
    reflexivity.
  - intros Hsome Hpdf.
    unfold get_document, try_except, os_path_exists, get_world, mbind, M_bind,
      mret, M_ret.
    rewrite bool_decide_eq_true_2 by exact Hsome.
    cbn [negb]. rewrite Hpdf. reflexivity.
  - intros content Hfile Hpdf Hans.
    eexists. split; [|split]; [| |split].
    3:{ intros text Htext.
        rewrite (get_document_read read_text filename st) by (rewrite ?Hfile; eauto).
        rewrite Hfile, Htext. reflexivity. }
    3:{ intros msg Hmsg.
        rewrite (get_document_read read_text filename st) by (rewrite ?Hfile; eauto).
        rewrite Hfile, Hmsg. reflexivity. }
    all: reflexivity.
  - intros Hdir Hpdf Hans. eexists.
    rewrite (get_document_read read_text filename st) by (rewrite ?Hdir; eauto).
    rewrite Hdir. reflexivity.
Qed.

(** *** An uploaded file is stored, whatever becomes of its indexing *)

Lemma upload_file_written (filename content : string) (st : St) :
  Z.of_nat (length (stored_documents (world st))) < 20 ->
  fs (world st) !! documents_dir settings = Some Dir ->
  fs (world st) !! path_join (documents_dir settings) filename ≠ Some Dir ->
  answered 0 st -> answered 1 st -> answered 2 st ->
  exists r st',
    upload_file filename content st = (r, st')
    /\ fs (world st')
       = <[path_join (documents_dir settings) filename := File content]>
           (fs (world st)).
Proof.
  intros Hlow Hdir Hnd H0 H1 H2.
  destruct (upload_file filename content st) as [r st'] eqn:Hup.
  exists r, st'. split; [reflexivity|].
  revert Hup.
  unfold upload_file, try_except, mbind at 1, M_bind at 1.
  rewrite (get_document_list_listed st Hdir H0).
  unfold mbind at 1, M_bind at 1.
  rewrite (proj2 (Z.leb_gt _ _) Hlow).
  unfold mret at 1, M_ret at 1.
  set (st1 := advance st (world st) (EvListDir (documents_dir settings))).
  assert (A1 : answered 0 st1) by now apply answered_advance.
  assert (A2 : answered 1 st1) by now apply answered_advance.
  unfold mbind at 1, M_bind at 1, os_makedirs.
  rewrite external_answered by exact A1.
  change (fs (world st1)) with (fs (world st)). rewrite Hdir.
  cbn beta iota zeta.
  set (st2 := advance st1 (world st1) (EvMakeDirs (documents_dir settings))).
  assert (A3 : answered 0 st2) by now apply answered_advance.
  unfold mbind at 1, M_bind at 1, write_file.
  rewrite external_answered by exact A3.
  change (fs (world st2)) with (fs (world st)).
  assert (Hw : forall (k : World -> result unit * World),
            (match fs (world st) !! path_join (documents_dir settings) filename with
             | Some Dir => k (world st2)
             | _ => (Ok tt, set_fs (world st2)
                       (<[path_join (documents_dir settings) filename := File content]>
                          (fs (world st))))
             end)
            = (Ok tt, set_fs (world st2)
                       (<[path_join (documents_dir settings) filename := File content]>
                          (fs (world st))))).
  { intros k.
    destruct (fs (world st) !! path_join (documents_dir settings) filename)
      as [[c|]|]; [reflexivity | now destruct Hnd | reflexivity]. }
  rewrite (Hw (fun w => (Raise (Exception _), w))). clear Hw.
  cbn beta iota zeta.
  match goal with
  | |- context [advance st2 ?w ?ev] => set (st3 := advance st2 w ev)
  end.
  unfold mbind at 1, M_bind at 1.
  destruct (load_and_index_documents
              (Some (path_join (documents_dir settings) filename)) st3)
    as [[res|e] st4] eqn:Hix;
    apply load_and_index_documents_same_fs in Hix;
    unfold mret, M_ret, raise; intros [= _ <-]; rewrite Hix; reflexivity.
Qed.

(** X13: below the cap, once written, an uploaded file stays, whether its
    indexing then succeeds or the route answers with an error: the next
    listing reports it under its name with the length of the uploaded
    content, and fetching it answers the decoded content. *)
Theorem uploaded_file_is_served (read_text : string -> result string)
    (filename content : string) (st : St) :
  Py.truthy filename = true ->
  Py.contains "/" filename = false ->
  Z.of_nat (length (stored_documents (world st))) < 20 ->
  fs (world st) !! documents_dir settings = Some Dir ->
  fs (world st) !! path_join (documents_dir settings) filename ≠ Some Dir ->
  answered 0 st -> answered 1 st -> answered 2 st ->
  exists r st',
    upload_file filename content st = (r, st')
    /\ (answered 0 st' ->
        exists docs st'',
          get_document_list st' = (Ok docs, st'')
          /\ {| di_filename := filename;
                di_path := path_join (documents_dir settings) filename;
                di_size := Py.len content |} ∈ docs)
    /\ (answered 0 st' ->
        Py.endswith filename ".pdf" = false ->
        forall text, read_text content = Ok text ->
        exists st'',
          get_document read_text filename st'
          = (Ok (DocumentContent filename text), st'')).
Proof.
  intros Ht Hs Hlow Hdir Hnd H0 H1 H2.
  destruct (upload_file_written filename content st Hlow Hdir Hnd H0 H1 H2)
    as (r & st' & Hup & Hfs).
  assert (Hfile : fs (world st') !! path_join (documents_dir settings) filename
                  = Some (File content)) by (rewrite Hfs; apply lookup_insert_eq).
  assert (Hdir' : fs (world st') !! documents_dir settings = Some Dir).
  { rewrite Hfs, lookup_insert_ne; [exact Hdir|]. intros Heq. apply Hnd.
    now rewrite Heq. }
  exists r, st'. split; [exact Hup|]. split.
  - intros Hans. rewrite (get_document_list_listed st' Hdir' Hans).
    eexists _, _. split; [reflexivity|].
    unfold stored_documents. rewrite Hdir'.
    apply list_elem_of_omap. exists filename. split.
    + unfold listdir_names. apply list_elem_of_omap.
      exists (path_join (documents_dir settings) filename). split.
      * apply list_elem_of_fmap. exists (path_join (documents_dir settings) filename,
                                         File content).
        split; [reflexivity|]. now apply elem_of_map_to_list.
      * now apply child_name_plain.
    + unfold doc_info. now rewrite Hfile.
  - intros Hans Hpdf text Htext. eexists.
    rewrite (get_document_read read_text filename st') by (rewrite ?Hfile; eauto).
    rewrite Hfile, Htext. reflexivity.
Qed.

(** *** Initialising against an existing collection *)





(** X15: constructing the service.  Without a Google API key the
    constructor raises at once, before any call to the outside; and
    whenever it returns, the client and the vector store are attached, so
    the guards on [self.vector_store] in the other methods are passed. *)
Theorem construction_outcomes (st : St) :
  (Py.truthy (google_api_key settings) = false ->
   RAGService__init__ st
   = (Raise (Exception "GOOGLE_API_KEY not found. Please set it in your .env file."),
      st))
  /\ (forall st',
        RAGService__init__ st = (Ok tt, st') ->
        Py.truthy (google_api_key settings) = true
        /\ vector_store (self st') = true
        /\ qdrant_client (self st') = true).
Proof.
  split.
  - intros Hkey. unfold RAGService__init__. now rewrite Hkey.
  - intros st' Hrun. split; [|exact (service_ready st st' Hrun)].
    revert Hrun. unfold RAGService__init__.
    destruct (Py.truthy (google_api_key settings)); [reflexivity | discriminate].
Qed.

(** *** Start-up *)

(** X16: what start-up does.  It never raises; without a documents
    directory it does nothing; and with one, the chunks of the whole
    directory are added to the points the collection already holds --
    nothing is deleted first, so every restart adds them once more. *)
Theorem startup_adds_again (st : St) :
  (exists st', lifespan_startup st = (Ok tt, st'))
  /\ (fs (world st) !! documents_dir settings = None ->
      lifespan_startup st = (Ok tt, st))
  /\ (forall raw st1 c,
        is_Some (fs (world st) !! documents_dir settings) ->
        vector_store (self st) = true ->
        load_raw None st = (Ok raw, st1) ->
        split_documents (map (stamp None) raw) ≠ [] ->
        qdrant (world st1) !! collection_name settings = Some c ->
        answered 0 st1 ->
        exists st',
          lifespan_startup st = (Ok tt, st')
          /\ qdrant (world st') !! collection_name settings
             = Some (upsert (split_documents (map (stamp None) raw)) c)
          /\ trace st' = trace st1
                         ++ [EvAddDocuments (collection_name settings)
                               (split_documents (map (stamp None) raw))]).
Proof.
  split; [|split].
  - unfold lifespan_startup, os_path_exists, get_world, mbind at 1, M_bind at 1.
    unfold mbind at 1, M_bind at 1, mret at 1, M_ret at 1.
    case_bool_decide; [|eexists; reflexivity].
    unfold try_except.
    match goal with |- context [match ?m st with _ => _ end] =>
      destruct (m st) as [[[]|e] s'] end; eexists; reflexivity.
  - intros Hnone.
    unfold lifespan_startup, os_path_exists, get_world, mbind, M_bind, mret, M_ret.
    rewrite bool_decide_eq_false_2; [reflexivity|].
    rewrite Hnone. intros [x Hx]. discriminate.
  - intros raw st1 c Hdir Hvs Hload Hne Hc H0.
    pose proof (respects_load_raw same_self _ same_self_across None st _ st1 Hload)
      as Hself.
    unfold lifespan_startup, os_path_exists, get_world, mbind at 1, M_bind at 1.
    unfold mbind at 1, M_bind at 1, mret at 1, M_ret at 1.
    rewrite bool_decide_eq_true_2 by exact Hdir.
    unfold try_except, mbind at 1, M_bind at 1.
    unfold load_and_index_documents, mbind at 1, M_bind at 1. rewrite Hload.
    unfold mbind at 1, M_bind at 1, get_self. rewrite Hself, Hvs.
    rewrite bool_decide_eq_false_2 by exact Hne. cbn [andb negb when].
    unfold mbind at 1, M_bind at 1.
    unfold index_documents, try_except, delete_then_add.
    cbn [given]. unfold mbind at 1, M_bind at 1, mret at 1, M_ret at 1.
    unfold add_documents. rewrite external_answered by exact H0.
    unfold on_collection. rewrite Hc. cbn beta iota zeta.
    eexists. split; [reflexivity|]. split.
    + cbn [world advance set_qdrant qdrant]. apply lookup_insert_eq.
    + reflexivity.
Qed.

(** *** The context given to the model *)

Lemma startswith_app_l (h n b : string) :
  Py.startswith h n = true -> Py.startswith (h +:+ b) n = true.
Proof.
  revert h. induction n as [|a n IH]; intros h H; [reflexivity|].
  destruct h as [|c h]; [discriminate|].
  change ((if Ascii.eqb a c then Py.startswith h n else false) = true) in H.
  change ((if Ascii.eqb a c then Py.startswith (h +:+ b) n else false) = true).
  destruct (Ascii.eqb a c); [now apply IH | discriminate].
Qed.

Lemma contains_app_l (n h b : string) :
  Py.contains n h = true -> Py.contains n (h +:+ b) = true.
Proof.
  induction h as [|c h IH]; intros H.
  - change (Py.startswith "" n || false = true) in H.
    rewrite orb_false_r in H. apply contains_here.
    now apply (startswith_app_l "" n b).
  - change (Py.startswith (String c h) n || Py.contains n h = true) in H.
    change (Py.startswith (String c h +:+ b) n || Py.contains n (h +:+ b) = true).
    apply orb_true_iff in H as [H|H]; apply orb_true_iff.
    + left. now apply startswith_app_l.
    + right. now apply IH.
Qed.

Lemma contains_self (n : string) : Py.contains n n = true.
Proof.
  apply contains_here.
  induction n as [|c n IH]; [reflexivity|].
  change ((if Ascii.eqb c c then Py.startswith n n else false) = true).
  now rewrite Ascii.eqb_refl.
Qed.

Lemma str_join_holds (sep part : string) (parts : list string) :
  part ∈ parts -> Py.contains part (str_join sep parts) = true.
Proof.
  induction parts as [|x rest IH]; intros Hin; [inversion Hin|].
  destruct rest as [|y rest].
  - apply list_elem_of_singleton in Hin. subst. apply contains_self.
  - change (Py.contains part (x +:+ sep +:+ str_join sep (y :: rest)) = true).
    apply elem_of_cons in Hin as [->|Hin].
    + apply contains_app_l, contains_self.
    + apply contains_app_r, contains_app_r. now apply IH.
Qed.

(** X17: the completion provider is called only with retrieved chunks.
    When the search returns nothing no completion call is made; when it
    returns chunks, one call is made, with the question and a context in
    which every retrieved chunk appears with its source marker -- the
    chunks whose file already has a reference included. *)
Theorem completion_call_context (question : string) (k : Z) (st st1 st2 : St)
    (docs : list Document) :
  check_collection st = (Ok None, st1) ->
  retrieve (collection_name settings) question k st1 = (Ok docs, st2) ->
  exists r st',
    query question k st = (r, st')
    /\ (docs = [] -> st' = st2)
    /\ (docs ≠ [] ->
        trace st' = trace st2 ++ [EvChainInvoke (build_context docs) question])
    /\ (forall d, d ∈ docs ->
          Py.contains ("[Source: " +:+ doc_filename d +:+ "]" +:+ nl +:+ page_content d)
                      (build_context docs) = true).
Proof.
  intros Hc Hr. rewrite (query_after_search _ _ _ _ _ _ Hc Hr).
  destruct (answer_from question docs st2) as [r st'] eqn:Ha.
  exists r, st'. split; [reflexivity|]. split; [|split].
  - intros ->. revert Ha. unfold answer_from. cbn. now intros [= _ <-].
  - intros Hne. revert Ha. unfold answer_from.
    rewrite bool_decide_eq_false_2 by exact Hne.
    unfold mbind, M_bind, chain_invoke. rewrite external_run.
    destruct (fault_at 0 st2); cbn beta iota zeta; now intros [= _ <-].
  - intros d Hd. unfold build_context. apply str_join_holds.
    apply list_elem_of_fmap. exists d. split; [reflexivity | exact Hd].
Qed.

(** *** Absolute filenames *)


End Service.

(* ===================================================================== *)
(** ** The model on concrete runs                                         *)
(* ===================================================================== *)

Import Fixture.

Example basename_ex : basename "src/documents/notes.txt" = "notes.txt".
Proof. reflexivity. Qed.

Example str_exn_ex : str_exn (HTTPException 400 "x") = "400: x".
Proof. vm_compute. reflexivity. Qed.

(** C2, on a server without the collection and on an empty collection. *)
Lemma query_fixed_answers_witness :
  (exists st', query settings embed similarity_search llm "q" 4 (start one_file ∅ [])
               = (Ok no_documents_result, st'))
  /\ (exists st', query settings embed similarity_search llm "q" 4
                    (start one_file ∅ [Some (Exception "timed out")])
                  = (Ok no_documents_result, st'))
  /\ (exists st2, query settings embed similarity_search llm "q" 4
                    (start one_file empty_index [])
                  = (Ok no_relevant_result, st2)).
Proof.
  split; [|split].
  - apply (query_fixed_answers settings embed similarity_search llm "q" 4
             (start one_file ∅ []));
      [reflexivity | reflexivity | left; reflexivity].
  - apply (query_fixed_answers settings embed similarity_search llm "q" 4
             (start one_file ∅ [Some (Exception "timed out")]));
      [reflexivity | reflexivity | right; reflexivity].
  - eexists.
    eapply (query_fixed_answers settings embed similarity_search llm "q" 4
              (start one_file empty_index [])); vm_compute; reflexivity.
Defined.

(** C3, on three retrieved chunks of two files. *)
Lemma query_references_witness :
  exists res st',
    query settings embed similarity_search llm "q" 4 (start one_file mixed_index [])
    = (Ok res, st')
    /\ map ref_filename (references res) = ["a.txt"; "b.txt"]
    /\ NoDup (map ref_filename (references res)).
Proof.
  eexists _, _. split; [vm_compute; reflexivity|]. split; [reflexivity|].
  eapply (query_references_first_per_filename settings embed similarity_search llm
            "q" 4 (start one_file mixed_index [])).
  vm_compute; reflexivity.
Defined.

(** C7, on a chunk of 250 characters. *)
Lemma query_reference_preview_witness :
  exists res st' r,
    query settings embed similarity_search llm "q" 4 (start one_file mixed_index [])
    = (Ok res, st')
    /\ r ∈ references res
    /\ ref_preview r = filler 200 +:+ "..."
    /\ Py.len (ref_preview r) <= 203.
Proof.
  eexists _, _, (make_reference (chunk a_path (filler 250))).
  split; [vm_compute; reflexivity|]. split; [left|]. split; [reflexivity|].
  eapply (query_reference_preview settings embed similarity_search llm
            "q" 4 (start one_file mixed_index [])).
  - vm_compute; reflexivity.
  - left.
Defined.

(** C9, on three retrieved chunks of two files. *)
Lemma query_context_used_witness :
  exists res st',
    query settings embed similarity_search llm "q" 4 (start one_file mixed_index [])
    = (Ok res, st')
    /\ context_used res = 3
    /\ length (references res) = 2%nat.
Proof.
  edestruct (query_context_used settings embed similarity_search llm "q" 4
               (start one_file mixed_index [])) as [Hval Htot];
    [vm_compute; reflexivity | vm_compute; reflexivity |].
  destruct Htot as (res & st' & Hq); [reflexivity|].
  exists res, st'. split; [exact Hq|].
  split; [exact (proj1 (Hval res st' Hq))|].
  vm_compute in Hq. injection Hq as <- _. reflexivity.
Defined.

(** C5, at the cap and below it. *)
Lemma upload_cap_witness :
  (exists e st',
     upload_file settings loader_load split_documents embed "new.txt" "text"
       (start twenty_files old_index [])
     = (Raise e, st')
     /\ world st' = world (start twenty_files old_index [])
     /\ trace st' = [EvListDir "src/documents"])
  /\ (exists r st',
        upload_file settings loader_load split_documents embed "a.txt" "new text"
          (start one_file old_index [])
        = (r, st')
        /\ fs (world st') !! a_path = Some (File "new text")).
Proof.
  split.
  - apply (upload_cap settings loader_load split_documents embed "new.txt" "text"
             (start twenty_files old_index [])).
    apply Z.leb_le. vm_compute. reflexivity.
  - apply (proj2 (upload_cap settings loader_load split_documents embed "a.txt"
                    "new text" (start one_file old_index [])) "hello").
    + apply Z.ltb_lt. vm_compute. reflexivity.
    + vm_compute. reflexivity.
    + vm_compute. reflexivity.
    + reflexivity.
    + reflexivity.
    + reflexivity.
Defined.

(** C10, at the cap, for the name of a stored document. *)
Lemma upload_cap_ignores_filename_witness :
  (exists e st',
     upload_file settings loader_load split_documents embed "f01.txt" "text"
       (start twenty_files old_index [])
     = (Raise e, st')
     /\ world st' = world (start twenty_files old_index []))
  /\ upload_file settings loader_load split_documents embed "fresh.txt" "other"
       (start twenty_files old_index [])
     = upload_file settings loader_load split_documents embed "f01.txt" "text"
         (start twenty_files old_index []).
Proof.
  destruct (upload_cap_ignores_filename settings loader_load split_documents embed
              "f01.txt" "text" (start twenty_files old_index [])) as [Hrej Hsame].
  - apply Z.leb_le. vm_compute. reflexivity.
  - exists {| di_filename := "f01.txt"; di_path := "src/documents/f01.txt";
              di_size := 1 |}.
    split; [|reflexivity].
    apply list_elem_of_In. vm_compute.
    repeat (first [left; reflexivity | right]).
  - split; [exact Hrej | apply Hsame].
Defined.

(** C6 (as amended), on a stored and indexed document, deleted twice. *)
Lemma delete_document_outcome_witness :
  exists st' st'',
    delete_document settings embed "a.txt" (start one_file old_index [])
    = (Ok true, st')
    /\ fs (world st') !! a_path = None
    /\ delete_document settings embed "a.txt" st' = (Ok true, st'')
    /\ world st'' = world st'.
Proof.
  destruct (delete_document_outcome settings embed "a.txt"
              (start one_file old_index []) eq_refl eq_refl)
    as (_ & _ & _ & Hrepeat).
  eexists _. 
  destruct (Hrepeat _ ltac:(vm_compute; reflexivity) eq_refl)
    as (Hgone & _ & st'' & Hagain & Hworld).
  exists st''. split; [vm_compute; reflexivity|].
  split; [exact Hgone|]. split; [exact Hagain | exact Hworld].
Defined.

(** C1 (as amended), on the upload of a new version of [a.txt]. *)
Lemma reindex_single_file_witness :
  exists res st' c,
    load_and_index_documents settings loader_load split_documents embed
      (Some a_path) (start one_file old_index [])
    = (Ok res, st')
    /\ qdrant (world st') !! "my_knowledge_base" = Some c
    /\ col_points c = [to_point embed (chunk a_path "hello")].
Proof.
  edestruct (reindex_single_file settings loader_load split_documents embed a_path
               (start one_file old_index [])) as [_ Hok].
  - reflexivity.
  - reflexivity.
  - vm_compute. reflexivity.
  - vm_compute. discriminate.
  - edestruct Hok as (res & st' & Hrun & _ & Hc & _).
    + vm_compute. reflexivity.
    + reflexivity.
    + reflexivity.
    + exists res, st'. eexists. split; [exact Hrun|]. split; [exact Hc|].
      vm_compute. reflexivity.
Defined.

(** C8 (as amended), on a server without the collection. *)
Lemma collection_bootstrap_witness :
  (exists r st',
     _initialize_vector_store settings embed (start one_file ∅ []) = (r, st')
     /\ EvCreateCollection "my_knowledge_base" 3 ∈ trace st')
  /\ (exists st',
        index_documents settings embed (Some a_path) [chunk a_path "hello"]
          (start one_file ∅ [])
        = (Ok tt, st')
        /\ qdrant (world st') !! "my_knowledge_base"
           = Some {| col_size := 3; col_payload_indexes := [];
                     col_points := [to_point embed (chunk a_path "hello")] |})
  /\ (exists st',
        create_and_retry settings embed [chunk a_path "hello"]
          (start one_file empty_index [])
        = (Ok tt, st')
        /\ qdrant (world st') !! "my_knowledge_base"
           = Some (upsert embed [chunk a_path "hello"] (mk_collection []))).
Proof.
  destruct (collection_bootstrap settings embed) as (Hinit & Hindex & _ & Hrace & _).
  split; [|split].
  - destruct (Hinit (start one_file ∅ [])) as (r & st' & Hrun & Htr & _);
      [vm_compute; reflexivity | reflexivity | reflexivity |].
    exists r, st'. split; [exact Hrun|]. rewrite Htr.
    apply list_elem_of_In. vm_compute. tauto.
  - destruct (Hindex a_path [chunk a_path "hello"] (start one_file ∅ []))
      as (st' & Hrun & Hc);
      [reflexivity | vm_compute; reflexivity | | ].
    + intros n. unfold answered, fault_at. cbn. now rewrite lookup_nil.
    + exists st'. split; [exact Hrun | exact Hc].
  - destruct (Hrace [chunk a_path "hello"] (start one_file empty_index [])
                (mk_collection [])) as (st' & Hrun & Hc & _);
      [vm_compute; reflexivity | reflexivity | reflexivity | reflexivity |].
    exists st'. split; [exact Hrun | exact Hc].
Defined.

(** C1 fails as stated.  Re-indexing the whole directory, as done at
    every start, inserts the chunks of [a.txt] without deleting those
    already indexed under that name; and on the upload of a new version,
    a delete that fails is only reported and the insert still runs.  In
    both runs the old and the new points of [a.txt] coexist afterwards. *)
Lemma reindex_keeps_old_points :
  (exists res st' c,
     load_and_index_documents settings loader_load split_documents embed None
       (start one_file old_index [])
     = (Ok res, st')
     /\ files res = ["a.txt"]
     /\ (forall name filename, EvDelete name filename ∉ trace st')
     /\ qdrant (world st') !! "my_knowledge_base" = Some c
     /\ col_points c = [to_point embed (chunk a_path "old text");
                        to_point embed (chunk a_path "hello")]
     /\ Forall (fun pt => has_filename "a.txt" pt = true) (col_points c))
  /\ (exists res st' c,
        load_and_index_documents settings loader_load split_documents embed
          (Some a_path)
          (start one_file old_index [None; Some (Exception "timed out")])
        = (Ok res, st')
        /\ trace st' = [EvLoad (TextLoader a_path);
                        EvDelete "my_knowledge_base" "a.txt";
                        EvAddDocuments "my_knowledge_base" [chunk a_path "hello"]]
        /\ qdrant (world st') !! "my_knowledge_base" = Some c
        /\ col_points c = [to_point embed (chunk a_path "old text");
                           to_point embed (chunk a_path "hello")]).
Proof.
  split.
  - eexists _, _, _. split; [vm_compute; reflexivity|].
    split; [reflexivity|]. split.
    + intros name filename Hin. cbn in Hin.
      repeat (apply elem_of_cons in Hin as [Hin|Hin]; [discriminate|]).
      inversion Hin.
    + split; [vm_compute; reflexivity|]. split; [reflexivity|].
      repeat constructor.
  - eexists _, _, _. split; [vm_compute; reflexivity|].
    split; [reflexivity|]. split; [vm_compute; reflexivity | reflexivity].
Qed.

(** C6 fails as stated: when the disk removal raises -- the entry to
    delete is a directory, or the file cannot be removed --
    [delete_document] reports failure although the index deletion never
    ran, let alone raised. *)
Lemma delete_document_disk_failure :
  (exists st',
     delete_document settings embed "archive" (start with_archive old_index [])
     = (Ok false, st')
     /\ trace st' = [EvRemove "src/documents/archive"]
     /\ (forall name filename, EvDelete name filename ∉ trace st')
     /\ world st' = world (start with_archive old_index []))
  /\ (exists st',
        delete_document settings embed "a.txt"
          (start one_file old_index [Some (Exception "[Errno 13] Permission denied")])
        = (Ok false, st')
        /\ trace st' = [EvRemove a_path]
        /\ world st' = world (start one_file old_index [])).
Proof.
  split.
  - eexists. split; [vm_compute; reflexivity|]. split; [reflexivity|]. split.
    + intros name filename Hin. cbn in Hin.
      repeat (apply elem_of_cons in Hin as [Hin|Hin]; [discriminate|]).
      inversion Hin.
    + reflexivity.
  - eexists. split; [vm_compute; reflexivity|]. split; reflexivity.
Qed.

(** C8 fails as stated: when the test embedding raises,
    [_initialize_vector_store] creates the collection with the constant
    768, here for an embedding model of dimension 3. *)
Lemma initialize_uses_fallback_dimension :
  exists st' c,
    _initialize_vector_store settings embed
      (start one_file ∅ [None; None; Some (Exception "503 Service Unavailable")])
    = (Ok tt, st')
    /\ qdrant (world st') !! "my_knowledge_base" = Some c
    /\ col_size c = 768
    /\ Z.of_nat (length (embed "test")) = 3
    /\ trace st' = [EvQdrantClient; EvGetCollections; EvEmbedQuery "test";
                    EvCreateCollection "my_knowledge_base" 768;
                    EvCreatePayloadIndex "my_knowledge_base" "metadata.filename";
                    EvQdrantVectorStore].
Proof.
  eexists _, _. split; [vm_compute; reflexivity|].
  split; [vm_compute; reflexivity|]. repeat split.
Qed.

(** *** The further properties on concrete runs *)

(** X1, for an uploaded [notes.txt]. *)
Lemma basename_path_join_witness :
  basename (path_join "src/documents" "notes.txt") = "notes.txt".
Proof. apply basename_path_join. reflexivity. Defined.

(** X3, on the upload of an emptied [a.txt] over an index that holds a
    chunk of its older version. *)
Lemma index_skipped_without_chunks_witness :
  exists res st1,
    load_and_index_documents settings loader_load split_documents embed
      (Some a_path) (start emptied_file old_index [])
    = (Ok res, st1)
    /\ chunk_count res = 0
    /\ world st1 = world (start emptied_file old_index []).
Proof.
  edestruct (index_skipped_without_chunks settings loader_load split_documents embed
               (Some a_path) (start emptied_file old_index []))
    as (res & loader & Hrun & _ & Hchunks & Hworld & _).
  - vm_compute. reflexivity.
  - left. vm_compute. reflexivity.
  - exists res. eexists. split; [exact Hrun|]. split; [exact Hchunks | exact Hworld].
Defined.

(** X4, on the re-index of a directory with one file. *)
Lemma index_result_counts_witness :
  exists res st',
    load_and_index_documents settings loader_load split_documents embed None
      (start one_file old_index [])
    = (Ok res, st')
    /\ raw_count res = 1 /\ NoDup (files res).
Proof.
  eexists _, _. split; [vm_compute; reflexivity|].
  edestruct (index_result_counts settings loader_load split_documents embed None
               (start one_file old_index [])) as (Hraw & _ & Hnd & _).
  - vm_compute. reflexivity.
  - vm_compute. reflexivity.
  - split; [exact Hraw | exact Hnd].
Defined.


(** X6, on a query answered from three chunks. *)
Lemma query_reads_only_witness :
  exists r st',
    query settings embed similarity_search llm "q" 4 (start one_file mixed_index [])
    = (r, st')
    /\ world st' = world (start one_file mixed_index []).
Proof.
  eexists _, _. split; [vm_compute; reflexivity|].
  eapply (query_reads_only settings embed similarity_search llm "q" 4
            (start one_file mixed_index [])).
  - reflexivity.
  - vm_compute. reflexivity.
Defined.

(** X7, on a provider error that mentions "Not Found" and on a time-out. *)
Lemma retrieval_failure_witness :
  (exists st',
     query settings embed similarity_search llm "q" 4
       (start one_file mixed_index
          [None; Some (Exception "404 Model Not Found: embedding-001")])
     = (Ok (no_documents_result), st'))
  /\ (exists st',
        query_rag settings embed similarity_search llm "q" 4
          (start one_file mixed_index [None; Some (Exception "timed out")])
        = (Raise (HTTPException 500 "Error processing query: timed out"), st')).
Proof.
  split.
  - edestruct (retrieval_failure_sorted_by_text settings embed similarity_search llm
                 "q" 4
                 (start one_file mixed_index
                    [None; Some (Exception "404 Model Not Found: embedding-001")]))
      as (_ & Hmiss & _).
    + vm_compute. reflexivity.
    + reflexivity.
    + eexists. apply Hmiss. reflexivity.
  - edestruct (retrieval_failure_sorted_by_text settings embed similarity_search llm
                 "q" 4
                 (start one_file mixed_index [None; Some (Exception "timed out")]))
      as (_ & _ & Hother).
    + vm_compute. reflexivity.
    + reflexivity.
    + eexists. apply Hother. reflexivity.
Defined.

(** X9, on the deletion of [a.txt] from an index that also holds [b.txt]. *)
Lemma delete_leaves_others_witness :
  exists st' c',
    delete_document settings embed "a.txt" (start one_file mixed_index [])
    = (Ok true, st')
    /\ qdrant (world st') !! "my_knowledge_base" = Some c'
    /\ {| pt_vector := embed "second";
          pt_payload := chunk "src/documents/b.txt" "second" |} ∈ col_points c'.
Proof.
  edestruct (delete_leaves_others settings embed "a.txt"
               (start one_file mixed_index [])) as (_ & _ & Hkeep).
  - reflexivity.
  - reflexivity.
  - vm_compute. reflexivity.
  - destruct (Hkeep (mk_collection three_chunks)) as (c' & Hc' & _ & Hpts).
    + vm_compute. reflexivity.
    + eexists _, c'. split; [reflexivity|]. split; [exact Hc'|].
      apply Hpts; [|reflexivity]. right. left.
Defined.

(** X10, at the cap. *)
Lemma routes_raise_500_witness :
  exists st',
    upload_file settings loader_load split_documents embed "new.txt" "text"
      (start twenty_files old_index [])
    = (Raise (HTTPException 500
         "Error uploading file: 400: File upload limit reached. Maximum 20 files allowed."),
       st').
Proof.
  apply (routes_raise_500 settings loader_load split_documents embed
           similarity_search llm (start twenty_files old_index [])).
  - apply Z.leb_le. vm_compute. reflexivity.
  - reflexivity.
Defined.

(** X11, on a store with a file and on one without a directory. *)
Lemma document_list_entries_witness :
  get_document_list settings (start ∅ old_index []) = (Ok [], start ∅ old_index [])
  /\ exists docs st',
       get_document_list settings (start one_file old_index []) = (Ok docs, st')
       /\ NoDup (map di_filename docs).
Proof.
  split.
  - apply (document_list_entries settings (start ∅ old_index [])).
    vm_compute. reflexivity.
  - eexists _, _. split; [vm_compute; reflexivity|].
    eapply (document_list_entries settings (start one_file old_index [])).
    vm_compute. reflexivity.
Defined.

(** X12, for a missing document and for a stored text file. *)
Lemma get_document_outcomes_witness :
  get_document settings read_text "missing.txt" (start one_file old_index [])
  = (Raise (HTTPException 404 "Document not found"), start one_file old_index [])
  /\ exists st',
       get_document settings read_text "a.txt" (start one_file old_index [])
       = (Ok (DocumentContent "a.txt" "hello"), st').
Proof.
  split.
  - apply (get_document_outcomes settings read_text "missing.txt"
             (start one_file old_index [])).
    vm_compute. reflexivity.
  - destruct (get_document_outcomes settings read_text "a.txt"
                (start one_file old_index [])) as (_ & _ & Hread & _).
    destruct (Hread "hello") as (st' & _ & _ & Hok & _);
      [vm_compute; reflexivity | reflexivity | reflexivity |].
    exists st'. apply Hok. reflexivity.
Defined.

(** X13, on the upload of a new file whose indexing fails. *)
Lemma uploaded_file_is_served_witness :
  exists e st' docs st'',
    upload_file settings loader_load split_documents embed "notes.txt" "some text"
      (start one_file old_index
         [None; None; None; None; None; Some (Exception "timed out")])
    = (Raise e, st')
    /\ get_document_list settings st' = (Ok docs, st'')
    /\ {| di_filename := "notes.txt"; di_path := "src/documents/notes.txt";
          di_size := 9 |} ∈ docs.
Proof.
  edestruct (uploaded_file_is_served settings loader_load split_documents embed
               read_text "notes.txt" "some text"
               (start one_file old_index
                  [None; None; None; None; None; Some (Exception "timed out")]))
    as (r & st' & Hup & Hlist & _).
  - reflexivity.
  - reflexivity.
  - apply Z.ltb_lt. vm_compute. reflexivity.
  - vm_compute. reflexivity.
  - vm_compute. discriminate.
  - reflexivity.
  - reflexivity.
  - reflexivity.
  - assert (Hr : upload_file settings loader_load split_documents embed "notes.txt"
                   "some text"
                   (start one_file old_index
                      [None; None; None; None; None; Some (Exception "timed out")])
                 = (Raise (HTTPException 500 "Error uploading file: timed out"),
                    st')).
    { rewrite Hup. f_equal. vm_compute in Hup. now injection Hup as <- _. }
    destruct Hlist as (docs & st'' & Hl & Hin).
    + vm_compute in Hup. injection Hup as _ <-. reflexivity.
    + eexists _, st', docs, st''. split; [exact Hr|]. split; [exact Hl | exact Hin].
Defined.


(** X15, without and with a key. *)
Lemma construction_outcomes_witness :
  RAGService__init__ settings_without_key embed (start one_file ∅ [])
  = (Raise (Exception "GOOGLE_API_KEY not found. Please set it in your .env file."),
     start one_file ∅ [])
  /\ exists st',
       RAGService__init__ settings embed (start one_file ∅ []) = (Ok tt, st')
       /\ vector_store (self st') = true.
Proof.
  split.
  - apply (construction_outcomes settings_without_key embed (start one_file ∅ [])).
    reflexivity.
  - eexists. split; [vm_compute; reflexivity|].
    eapply (construction_outcomes settings embed (start one_file ∅ [])).
    vm_compute. reflexivity.
Defined.

(** X16, on a restart over an index that holds the directory's chunk. *)
Lemma startup_adds_again_witness :
  exists st' c',
    lifespan_startup settings loader_load split_documents embed
      (start one_file old_index [])
    = (Ok tt, st')
    /\ qdrant (world st') !! "my_knowledge_base" = Some c'
    /\ length (col_points c') = 2%nat.
Proof.
  destruct (startup_adds_again settings loader_load split_documents embed
              (start one_file old_index [])) as (_ & _ & Hadd).
  edestruct Hadd as (st' & Hrun & Hc & _).
  - vm_compute. eauto.
  - reflexivity.
  - vm_compute. reflexivity.
  - vm_compute. discriminate.
  - vm_compute. reflexivity.
  - reflexivity.
  - eexists st', _. split; [exact Hrun|]. split; [exact Hc|]. reflexivity.
Defined.

(** X17, on three retrieved chunks. *)
Lemma completion_call_context_witness :
  exists r st',
    query settings embed similarity_search llm "q" 4 (start one_file mixed_index [])
    = (r, st')
    /\ Py.contains ("[Source: a.txt]" +:+ nl +:+ "later")
                   (build_context three_chunks) = true.
Proof.
  edestruct (completion_call_context settings embed similarity_search llm "q" 4
               (start one_file mixed_index []))
    as (r & st' & Hrun & _ & _ & Hall).
  - vm_compute. reflexivity.
  - vm_compute. reflexivity.
  - exists r, st'. split; [exact Hrun|].
    apply (Hall (chunk a_path "later")). right. right. left.
Defined.

